(** * Transcription endpoints of the notes backend

    A shallow embedding of [notes-backend/routers/transcription.py]:
    the role filter, the upload handlers with their content-type
    resolution, the listing and deletion handlers and the five medical
    workflow handlers, followed by the properties checked on them.

    Python values whose type the code does not fix are kept as [pyobj];
    dictionaries handed over by collaborators are [gmap string pyobj];
    characters are code points below 256. *)

From Stdlib Require Import QArith Ascii String.
From stdpp Require Import base option list strings gmap pretty.

Local Open Scope string_scope.
Local Open Scope Z_scope.
Set Warnings "-register-all".

(** ** Python values *)

Inductive pyobj : Type :=
| PNone
| PBool (b : bool)
| PInt (z : Z)
| PFloat (q : Q)
| PStr (s : string)
| PList (l : list pyobj)
| PDict (d : list (string * pyobj)).

(** Truth value of an object, as [if x] / [not x] see it. *)
Definition truthy (v : pyobj) : bool :=
  match v with
  | PNone => false
  | PBool b => b
  | PInt z => negb (z =? 0)
  | PFloat q => negb (Qeq_bool q 0)
  | PStr s => negb (String.eqb s "")
  | PList l => match l with [] => false | _ => true end
  | PDict d => match d with [] => false | _ => true end
  end.

Definition truthy_str (o : option string) : bool :=
  match o with
  | None => false
  | Some s => negb (String.eqb s "")
  end.

(** [str(x)] of an optional string inside an f-string. *)
Definition fstr_opt (o : option string) : string :=
  match o with None => "None" | Some s => s end.

(** ** Exceptions *)

Inductive exn : Type :=
| HTTPException (status_code : Z) (detail : pyobj)
| KeyError (key : string)
| ZeroDivisionError
| RequestValidationError
| CollaboratorError (what : pyobj).

Inductive result (A : Type) : Type :=
| Ok (a : A)
| Raise (e : exn).
Arguments Ok {A} a.
Arguments Raise {A} e.

Definition is_ok {A} (r : result A) : bool :=
  match r with Ok _ => true | Raise _ => false end.

(** [d[k]] on a dictionary. *)
Definition getitem (d : gmap string pyobj) (k : string) : result pyobj :=
  match d !! k with
  | Some v => Ok v
  | None => Raise (KeyError k)
  end.

(** [d.get(k, default)]. *)
Definition dict_get (d : gmap string pyobj) (k : string) (default : pyobj) : pyobj :=
  match d !! k with
  | Some v => v
  | None => default
  end.

(** [a == "literal"] for an arbitrary object [a]. *)
Definition eq_str (v : pyobj) (s : string) : bool :=
  match v with
  | PStr s' => String.eqb s' s
  | _ => false
  end.

(** ** String helpers *)

Module Str.

Definition code (c : ascii) : N := N_of_ascii c.

(** [str.lower] on one code point below 256. *)
Definition lower_char (c : ascii) : ascii :=
  let n := code c in
  if ((65 <=? n) && (n <=? 90))%N
     || ((192 <=? n) && (n <=? 222) && negb (n =? 215))%N
  then ascii_of_N (n + 32)
  else c.

Fixpoint lower (s : string) : string :=
  match s with
  | EmptyString => EmptyString
  | String c s' => String (lower_char c) (lower s')
  end.

Fixpoint rev_onto (s acc : string) : string :=
  match s with
  | EmptyString => acc
  | String c s' => rev_onto s' (String c acc)
  end.

Definition rev (s : string) : string := rev_onto s EmptyString.

Fixpoint startswith (s p : string) {struct p} : bool :=
  match p, s with
  | EmptyString, _ => true
  | String _ _, EmptyString => false
  | String a p', String b s' => Ascii.eqb a b && startswith s' p'
  end.

(** [s.endswith(suffix)]. *)
Definition endswith (s suffix : string) : bool :=
  startswith (rev s) (rev suffix).

(** [s.split(sep)[0]]: the characters before the first [sep]. *)
Fixpoint split_head (sep : ascii) (s : string) : string :=
  match s with
  | EmptyString => EmptyString
  | String c s' =>
      if Ascii.eqb c sep then EmptyString else String c (split_head sep s')
  end.

(** [str.isspace] on one code point below 256. *)
Definition is_space (c : ascii) : bool :=
  let n := code c in
  (((9 <=? n) && (n <=? 13)) || ((28 <=? n) && (n <=? 32))
   || (n =? 133) || (n =? 160))%N.

Fixpoint lstrip (s : string) : string :=
  match s with
  | EmptyString => EmptyString
  | String c s' => if is_space c then lstrip s' else s
  end.

(** [s.strip()]. *)
Definition strip (s : string) : string :=
  rev (lstrip (rev (lstrip s))).

Definition semicolon : ascii := ";"%char.

End Str.

(** ** Numbers *)

Module Num.

(** [round(x * 100)] to the nearest integer, ties to even. *)
Definition round_half_even_hundredths (x : Q) : Z :=
  let a := Qnum x * 100 in
  let b := Zpos (Qden x) in
  let q := a / b in
  let r := a mod b in
  match (2 * r) ?= b with
  | Lt => q
  | Gt => q + 1
  | Eq => if Z.even q then q else q + 1
  end.

(** [round(x, 2)]. *)
Definition round2 (x : Q) : Q := round_half_even_hundredths x # 100.

Definition two_digits (z : Z) : string :=
  if z <? 10 then "0" +:+ pretty z else pretty z.

(** [f"{x:.2f}"] for [x >= 0]. *)
Definition format_2f (x : Q) : string :=
  let h := round_half_even_hundredths x in
  pretty (h / 100) +:+ "." +:+ two_digits (h mod 100).

(** [a > b]. *)
Definition Qgtb (a b : Q) : bool := negb (Qle_bool a b).

End Num.

(** ** Data model *)

(** Modelled from the spec: the [UserRole] enumeration of [models/user.py],
    which is not part of the sources at hand.  The router names only
    [UserRole.DOCTOR]; the spec names the Administrator; [OTHER] stands for
    any further member the enumeration may have. *)
Inductive UserRole : Type :=
| DOCTOR
| ADMINISTRATOR
| OTHER (name : string).

#[global] Instance UserRole_eq_dec : EqDecision UserRole.
Proof. solve_decision. Defined.

Record User : Type := mkUser {
  user_id : Z;
  role : UserRole
}.

(** Modelled from the spec: the label kept in [workflow_status]
    (section 4.4 of the spec); the column itself belongs to
    [models/transcription.py]. *)
Inductive WorkflowStatus : Type :=
| Raw
| NoteGenerated
| CodesSuggested
| FormGenerated.

Definition status_label (s : WorkflowStatus) : string :=
  match s with
  | Raw => "Raw"
  | NoteGenerated => "NoteGenerated"
  | CodesSuggested => "CodesSuggested"
  | FormGenerated => "FormGenerated"
  end.

Definition opt_str (o : option string) : pyobj :=
  match o with None => PNone | Some s => PStr s end.

(** The ORM entity.  The three code/form columns and [medical_note] hold
    whatever the AI collaborator returned, [PNone] while absent. *)
Module Transcription.
Record t : Type := mk {
  id : Z;
  filename : option string;
  file_size_mb : Q;
  content_type : option string;
  text : pyobj;
  processing_time_seconds : Q;
  model : pyobj;
  provider : string;
  medical_note : pyobj;
  icd10_codes : pyobj;
  cpt_codes : pyobj;
  cms1500_form : pyobj;
  workflow_status : WorkflowStatus;
  created_at : Z;
  updated_at : Z
}.
End Transcription.

(** The payload of [TranscriptionService.create_transcription]. *)
Module TranscriptionCreate.
Record t : Type := mk {
  filename : option string;
  file_size_mb : Q;
  content_type : option string;
  text : pyobj;
  processing_time_seconds : Q;
  model : pyobj;
  provider : string
}.
End TranscriptionCreate.

(** The schema built for doctors: exactly the twelve keyword arguments of
    the constructor call in [filter_transcription_for_role]. *)
Module TranscriptionResponseDoctor.
Record t : Type := mk {
  id : Z;
  filename : option string;
  file_size_mb : Q;
  content_type : option string;
  text : pyobj;
  processing_time_seconds : Q;
  model : pyobj;
  provider : string;
  medical_note : pyobj;
  workflow_status : WorkflowStatus;
  created_at : Z;
  updated_at : Z
}.

Definition dict (r : t) : list (string * pyobj) :=
  [ ("id", PInt (id r));
    ("filename", opt_str (filename r));
    ("file_size_mb", PFloat (file_size_mb r));
    ("content_type", opt_str (content_type r));
    ("text", text r);
    ("processing_time_seconds", PFloat (processing_time_seconds r));
    ("model", model r);
    ("provider", PStr (provider r));
    ("medical_note", medical_note r);
    ("workflow_status", PStr (status_label (workflow_status r)));
    ("created_at", PInt (created_at r));
    ("updated_at", PInt (updated_at r)) ].
End TranscriptionResponseDoctor.

(** Modelled from the spec: the [TranscriptionResponse] schema of
    [schemas/transcription.py], which is not part of the sources at hand.
    The spec describes the Administrator view as the full record,
    unfiltered, so [from_orm] copies every column. *)
Module TranscriptionResponse.
Record t : Type := mk {
  id : Z;
  filename : option string;
  file_size_mb : Q;
  content_type : option string;
  text : pyobj;
  processing_time_seconds : Q;
  model : pyobj;
  provider : string;
  medical_note : pyobj;
  icd10_codes : pyobj;
  cpt_codes : pyobj;
  cms1500_form : pyobj;
  workflow_status : WorkflowStatus;
  created_at : Z;
  updated_at : Z
}.

Definition from_orm (x : Transcription.t) : t :=
  {| id := Transcription.id x;
     filename := Transcription.filename x;
     file_size_mb := Transcription.file_size_mb x;
     content_type := Transcription.content_type x;
     text := Transcription.text x;
     processing_time_seconds := Transcription.processing_time_seconds x;
     model := Transcription.model x;
     provider := Transcription.provider x;
     medical_note := Transcription.medical_note x;
     icd10_codes := Transcription.icd10_codes x;
     cpt_codes := Transcription.cpt_codes x;
     cms1500_form := Transcription.cms1500_form x;
     workflow_status := Transcription.workflow_status x;
     created_at := Transcription.created_at x;
     updated_at := Transcription.updated_at x |}.

Definition dict (r : t) : list (string * pyobj) :=
  [ ("id", PInt (id r));
    ("filename", opt_str (filename r));
    ("file_size_mb", PFloat (file_size_mb r));
    ("content_type", opt_str (content_type r));
    ("text", text r);
    ("processing_time_seconds", PFloat (processing_time_seconds r));
    ("model", model r);
    ("provider", PStr (provider r));
    ("medical_note", medical_note r);
    ("icd10_codes", icd10_codes r);
    ("cpt_codes", cpt_codes r);
    ("cms1500_form", cms1500_form r);
    ("workflow_status", PStr (status_label (workflow_status r)));
    ("created_at", PInt (created_at r));
    ("updated_at", PInt (updated_at r)) ].
End TranscriptionResponse.

(** What a handler hands back for one record:
    [Union[TranscriptionResponse, TranscriptionResponseDoctor]].  This is
    the object the handler returns; what FastAPI then makes of it against
    the declared response model is outside the router. *)
Inductive RoleView : Type :=
| DoctorView (r : TranscriptionResponseDoctor.t)
| FullView (r : TranscriptionResponse.t).

(** The fields of a view, as the dictionary of the object returned. *)
Definition view_dict (v : RoleView) : gmap string pyobj :=
  match v with
  | DoctorView r => list_to_map (TranscriptionResponseDoctor.dict r)
  | FullView r => list_to_map (TranscriptionResponse.dict r)
  end.

(** The full record as a dictionary: every column of the entity. *)
Definition record_dict (x : Transcription.t) : gmap string pyobj :=
  list_to_map
    [ ("id", PInt (Transcription.id x));
      ("filename", opt_str (Transcription.filename x));
      ("file_size_mb", PFloat (Transcription.file_size_mb x));
      ("content_type", opt_str (Transcription.content_type x));
      ("text", Transcription.text x);
      ("processing_time_seconds", PFloat (Transcription.processing_time_seconds x));
      ("model", Transcription.model x);
      ("provider", PStr (Transcription.provider x));
      ("medical_note", Transcription.medical_note x);
      ("icd10_codes", Transcription.icd10_codes x);
      ("cpt_codes", Transcription.cpt_codes x);
      ("cms1500_form", Transcription.cms1500_form x);
      ("workflow_status", PStr (status_label (Transcription.workflow_status x)));
      ("created_at", PInt (Transcription.created_at x));
      ("updated_at", PInt (Transcription.updated_at x)) ].

Definition billing_keys : list string :=
  [ "icd10_codes"; "cpt_codes"; "cms1500_form" ].

(** ** The role filter *)

Definition filter_transcription_for_role
    (transcription : Transcription.t) (user : User) : RoleView :=
  if decide (role user = DOCTOR) then
    DoctorView
      {| TranscriptionResponseDoctor.id := Transcription.id transcription;
         TranscriptionResponseDoctor.filename := Transcription.filename transcription;
         TranscriptionResponseDoctor.file_size_mb := Transcription.file_size_mb transcription;
         TranscriptionResponseDoctor.content_type := Transcription.content_type transcription;
         TranscriptionResponseDoctor.text := Transcription.text transcription;
         TranscriptionResponseDoctor.processing_time_seconds :=
           Transcription.processing_time_seconds transcription;
         TranscriptionResponseDoctor.model := Transcription.model transcription;
         TranscriptionResponseDoctor.provider := Transcription.provider transcription;
         TranscriptionResponseDoctor.medical_note := Transcription.medical_note transcription;
         TranscriptionResponseDoctor.workflow_status :=
           Transcription.workflow_status transcription;
         TranscriptionResponseDoctor.created_at := Transcription.created_at transcription;
         TranscriptionResponseDoctor.updated_at := Transcription.updated_at transcription |}
  else
    FullView (TranscriptionResponse.from_orm transcription).

(** ** Configuration and uploads *)

(** The values of [config.settings] the router reads; the module itself is
    not part of the sources at hand, so they are taken as given. *)
Record Settings : Type := mkSettings {
  ALLOWED_AUDIO_FORMATS : list string;
  MAX_FILE_SIZE_MB : Z;
  AVAILABLE_MODELS : gmap string (gmap string pyobj);
  DEFAULT_MODEL : string
}.

(** A FastAPI [UploadFile]: declared content type, file name, content. *)
Record UploadFile : Type := mkUpload {
  upload_content_type : option string;
  upload_filename : option string;
  upload_bytes : list Byte.byte
}.

Definition octet_stream : string := "application/octet-stream".

Definition ext_to_mime : list (string * string) :=
  [ (".mp3", "audio/mpeg");
    (".wav", "audio/wav");
    (".m4a", "audio/m4a");
    (".ogg", "audio/ogg");
    (".flac", "audio/flac");
    (".webm", "audio/webm") ].

(** The loop over [ext_to_mime.items()]: the first extension, in insertion
    order, that ends the lowered file name. *)
Fixpoint match_extension (table : list (string * string)) (filename_lower : string)
  : option string :=
  match table with
  | [] => None
  | (ext, mime) :: rest =>
      if Str.endswith filename_lower ext then Some mime
      else match_extension rest filename_lower
  end.

(** Lines 114-132 of [transcribe_audio]: the content type after the
    extension fallback. *)
Definition detect_content_type (audio : UploadFile) : option string :=
  let content_type := upload_content_type audio in
  if bool_decide (content_type = Some octet_stream) then
    let filename_lower :=
      match upload_filename audio with
      | Some f => if negb (String.eqb f "") then Str.lower f else ""
      | None => ""
      end in
    match match_extension ext_to_mime filename_lower with
    | Some mime => Some mime
    | None => content_type
    end
  else content_type.

(** Line 135: the part before [;], stripped; empty for a missing type. *)
Definition base_content_type (content_type : option string) : string :=
  if truthy_str content_type then
    match content_type with
    | Some s => Str.strip (Str.split_head Str.semicolon s)
    | None => ""
    end
  else "".

Definition str_in (s : string) (l : list string) : bool :=
  existsb (String.eqb s) l.

(** Line 137: the condition under which the upload is refused as
    unsupported. *)
Definition format_rejected (settings : Settings) (base : string) : bool :=
  negb (str_in base (ALLOWED_AUDIO_FORMATS settings))
  && negb (String.eqb base octet_stream).

(** Lines 145-146: the size in megabytes.  Dividing by 2^20 is exact in
    binary floating point, so the quotient is kept as a rational. *)
Definition size_mb (audio_bytes : list Byte.byte) : Q :=
  Z.of_nat (length audio_bytes) # 1048576.

(** ** Collaborators and effects

    The router talks to three services.  Each call is an operation of a
    signature; a handler is a finite program over these operations. *)

(** [services/transcription_service.py]: the operations the router uses.
    A missing record is [None] / [False], never an exception. *)
Module TranscriptionService.
Inductive op : Type -> Type :=
| create_transcription (data : TranscriptionCreate.t) : op Transcription.t
| get_transcriptions (skip limit : Z) : op (list Transcription.t)
| count_transcriptions : op Z
| get_transcription (transcription_id : Z) : op (option Transcription.t)
| delete_transcription (transcription_id : Z) : op bool
| update_medical_note (transcription_id : Z) (medical_note : pyobj)
    : op (option Transcription.t)
| update_icd10_codes (transcription_id : Z) (icd10_codes : pyobj)
    : op (option Transcription.t)
| update_cpt_codes (transcription_id : Z) (cpt_codes : pyobj)
    : op (option Transcription.t)
| update_cms1500_form (transcription_id : Z) (cms1500_form : pyobj)
    : op (option Transcription.t)
| update_full_workflow (transcription_id : Z)
    (medical_note icd10_codes cpt_codes cms1500_form : pyobj)
    : op (option Transcription.t).

(** Does the operation write to the database? *)
Definition writes {X} (o : op X) : bool :=
  match o with
  | get_transcriptions _ _ | count_transcriptions | get_transcription _ => false
  | _ => true
  end.
End TranscriptionService.

(** [services/huggingface_service.py]: the speech transcriber.  It answers
    with a dictionary, or raises. *)
Module HuggingFaceService.
Inductive op : Type -> Type :=
| transcribe_audio (audio_bytes : list Byte.byte) (content_type : option string)
    : op (result (gmap string pyobj)).
End HuggingFaceService.

(** [services/ai_medical_service.py]: the medical assistant.  Every call
    answers with a value, or raises. *)
Module AIMedicalService.
Inductive op : Type -> Type :=
| generate_medical_note (text : pyobj) : op (result pyobj)
| suggest_icd10_codes (medical_note text : pyobj) : op (result pyobj)
| suggest_cpt_codes (medical_note text : pyobj) : op (result pyobj)
| generate_cms1500_form_data (medical_note icd10_codes cpt_codes patient : pyobj)
    : op (result pyobj)
| run_full_workflow (text patient : pyobj) : op (result (gmap string pyobj)).
End AIMedicalService.

Inductive Event : Type -> Type :=
| Db {X} (o : TranscriptionService.op X) : Event X
| Hf {X} (o : HuggingFaceService.op X) : Event X
| Ai {X} (o : AIMedicalService.op X) : Event X
| time_time : Event Q.

(** One recorded call. *)
Definition Call : Type := { X : Type & Event X }.
Definition called {X} (e : Event X) : Call := existT X e.

Definition is_hf_call (c : Call) : bool :=
  match projT2 c with Hf _ => true | _ => false end.
Definition is_ai_call (c : Call) : bool :=
  match projT2 c with Ai _ => true | _ => false end.
Definition is_db_write (c : Call) : bool :=
  match projT2 c with Db o => TranscriptionService.writes o | _ => false end.
Definition is_full_update (c : Call) : bool :=
  match projT2 c with
  | Db (TranscriptionService.update_full_workflow _ _ _ _ _) => true
  | _ => false
  end.

(** Programs over the operations. *)
Inductive prog (R : Type) : Type :=
| Ret (r : R)
| Vis {X : Type} (e : Event X) (k : X -> prog R).
Arguments Ret {R} r.
Arguments Vis {R X} e k.

(** A handler either returns or raises. *)
Definition M (A : Type) : Type := prog (result A).

Fixpoint bind {A B} (p : M A) (f : A -> M B) : M B :=
  match p with
  | Ret (Ok a) => f a
  | Ret (Raise e) => Ret (Raise e)
  | Vis e k => Vis e (fun x => bind (k x) f)
  end.

Definition ret {A} (a : A) : M A := Ret (Ok a).
Definition raise {A} (e : exn) : M A := Ret (Raise e).
(** A pure step that may raise ([d[k]], [a // b]). *)
Definition lift {A} (r : result A) : M A := Ret r.
(** A call that cannot raise. *)
Definition call {X} (e : Event X) : M X := Vis e (fun x => Ret (Ok x)).
(** A call whose exception, if any, propagates. *)
Definition call_exn {X} (e : Event (result X)) : M X := Vis e Ret.

Notation "x <- c1 ;; c2" := (bind c1 (fun x => c2))
  (at level 100, c1 at next level, right associativity).

(** ** Running a program *)

(** What a database must provide.  Reads leave it as it is. *)
Class Store (DB : Type) : Type := {
  store_create : TranscriptionCreate.t -> DB -> Transcription.t * DB;
  store_list : Z -> Z -> DB -> list Transcription.t;
  store_count : DB -> Z;
  store_get : Z -> DB -> option Transcription.t;
  store_delete : Z -> DB -> bool * DB;
  store_update_medical_note : Z -> pyobj -> DB -> option Transcription.t * DB;
  store_update_icd10_codes : Z -> pyobj -> DB -> option Transcription.t * DB;
  store_update_cpt_codes : Z -> pyobj -> DB -> option Transcription.t * DB;
  store_update_cms1500_form : Z -> pyobj -> DB -> option Transcription.t * DB;
  store_update_full_workflow :
    Z -> pyobj -> pyobj -> pyobj -> pyobj -> DB -> option Transcription.t * DB
}.

(** The answers of the external services, and the clock readings in the
    order they are taken. *)
Record Collaborators : Type := mkCollaborators {
  hf_answer : forall X, HuggingFaceService.op X -> X;
  ai_answer : forall X, AIMedicalService.op X -> X;
  clock : nat -> Q
}.

Section Run.
Context {DB : Type} `{Store DB}.
Variable env : Collaborators.

Record World : Type := mkWorld {
  w_db : DB;
  w_ticks : nat;
  w_trace : list Call
}.

Definition db_step {X} (o : TranscriptionService.op X) (db : DB) : X * DB :=
  match o in TranscriptionService.op X return X * DB with
  | TranscriptionService.create_transcription d => store_create d db
  | TranscriptionService.get_transcriptions skip limit =>
      (store_list skip limit db, db)
  | TranscriptionService.count_transcriptions => (store_count db, db)
  | TranscriptionService.get_transcription i => (store_get i db, db)
  | TranscriptionService.delete_transcription i => store_delete i db
  | TranscriptionService.update_medical_note i v =>
      store_update_medical_note i v db
  | TranscriptionService.update_icd10_codes i v =>
      store_update_icd10_codes i v db
  | TranscriptionService.update_cpt_codes i v =>
      store_update_cpt_codes i v db
  | TranscriptionService.update_cms1500_form i v =>
      store_update_cms1500_form i v db
  | TranscriptionService.update_full_workflow i a b c d =>
      store_update_full_workflow i a b c d db
  end.

Definition step {X} (e : Event X) (w : World) : X * World :=
  let log := (w_trace w ++ [called e])%list in
  match e in Event X return X * World with
  | Db o =>
      let '(x, db') := db_step o (w_db w) in
      (x, mkWorld db' (w_ticks w) log)
  | Hf o => (hf_answer env _ o, mkWorld (w_db w) (w_ticks w) log)
  | Ai o => (ai_answer env _ o, mkWorld (w_db w) (w_ticks w) log)
  | time_time => (clock env (w_ticks w), mkWorld (w_db w) (S (w_ticks w)) log)
  end.

Fixpoint run {R} (p : prog R) (w : World) : R * World :=
  match p with
  | Ret r => (r, w)
  | Vis e k => let '(x, w') := step e w in run (k x) w'
  end.

(** A request served on database [db]: the outcome, the database
    afterwards and the calls made, in order. *)
Definition serve {R} (p : prog R) (db : DB) : R * DB * list Call :=
  let '(r, w) := run p (mkWorld db 0 []) in
  (r, w_db w, w_trace w).
End Run.

Definition outcome {R DB} (x : R * DB * list Call) : R := x.1.1.
Definition db_after {R DB} (x : R * DB * list Call) : DB := x.1.2.
Definition calls {R DB} (x : R * DB * list Call) : list Call := x.2.

(** ** The handlers *)

Definition http (status_code : Z) (detail : string) : exn :=
  HTTPException status_code (PStr detail).

(** [Optional[PatientInfo]] and [patient_info.dict() if patient_info else None]. *)
Record PatientInfo : Type := mkPatientInfo {
  name : option string;
  dob : option string;
  sex : option string;
  address : option string;
  city_state_zip : option string;
  phone : option string;
  patient_id : option string;
  insured_name : option string;
  insured_id : option string;
  insurance_group : option string
}.

Definition PatientInfo_dict (p : PatientInfo) : pyobj :=
  PDict
    [ ("name", opt_str (name p));
      ("dob", opt_str (dob p));
      ("sex", opt_str (sex p));
      ("address", opt_str (address p));
      ("city_state_zip", opt_str (city_state_zip p));
      ("phone", opt_str (phone p));
      ("id", opt_str (patient_id p));
      ("insured_name", opt_str (insured_name p));
      ("insured_id", opt_str (insured_id p));
      ("insurance_group", opt_str (insurance_group p)) ].

Definition patient_dict (patient_info : option PatientInfo) : pyobj :=
  match patient_info with
  | Some p => PatientInfo_dict p
  | None => PNone
  end.

(** The dictionary every workflow handler returns. *)
Record WorkflowStepResponse : Type := mkStep {
  success : bool;
  message : string;
  transcription : RoleView
}.

(** The dictionary [get_transcriptions] returns. *)
Record TranscriptionListResponse : Type := mkList {
  total : Z;
  items : list RoleView;
  page : Z;
  page_size : Z
}.

(** [a // b] on integers. *)
Definition floordiv (a b : Z) : result Z :=
  if b =? 0 then Raise ZeroDivisionError else Ok (a / b).

(** The bounds declared by [Query(0, ge=0)] and [Query(10, ge=1, le=100)];
    FastAPI answers 422 before the handler body runs when they fail. *)
Definition query_ok (skip limit : Z) : bool :=
  (0 <=? skip) && (1 <=? limit) && (limit <=? 100).

(** Line 80: [audio.content_type or "audio/webm"]. *)
Definition chunk_content_type (audio : UploadFile) : option string :=
  if truthy_str (upload_content_type audio) then upload_content_type audio
  else Some "audio/webm".

Definition transcribe_audio_chunk (audio : UploadFile) (current_user : User)
  : M (gmap string pyobj) :=
  let audio_bytes := upload_bytes audio in
  if (length audio_bytes =? 0)%nat then
    ret {[ "text" := PStr ""; "status" := PStr "empty" ]}
  else
    let content_type := chunk_content_type audio in
    result <- call_exn (Hf (HuggingFaceService.transcribe_audio audio_bytes content_type)) ;;
    status <- lift (getitem result "status") ;;
    if eq_str status "error" then
      ret {[ "text" := PStr ""; "status" := PStr "error";
             "message" := dict_get result "message" (PStr "Error transcribing") ]}
    else
      status <- lift (getitem result "status") ;;
      if eq_str status "loading" then
        ret {[ "text" := PStr ""; "status" := PStr "loading" ]}
      else
        text <- lift (getitem result "text") ;;
        ret {[ "text" := text; "status" := PStr "success" ]}.

Definition transcribe_audio (settings : Settings) (audio : UploadFile)
    (current_user : User) : M RoleView :=
  let content_type := detect_content_type audio in
  let base := base_content_type content_type in
  if format_rejected settings base then
    raise (http 400 ("Unsupported format: " +:+ fstr_opt content_type))
  else
    let audio_bytes := upload_bytes audio in
    let file_size_mb := size_mb audio_bytes in
    if Num.Qgtb file_size_mb (inject_Z (MAX_FILE_SIZE_MB settings)) then
      raise (http 413
               ("File too large: " +:+ Num.format_2f file_size_mb
                +:+ " MB. Maximum: " +:+ pretty (MAX_FILE_SIZE_MB settings)
                +:+ " MB"))
    else
      start_time <- call time_time ;;
      result <- call_exn (Hf (HuggingFaceService.transcribe_audio audio_bytes content_type)) ;;
      end_time <- call time_time ;;
      let elapsed_time := (end_time - start_time)%Q in
      status <- lift (getitem result "status") ;;
      if eq_str status "error" then
        detail <- lift (getitem result "message") ;;
        raise (HTTPException 500 detail)
      else
        status <- lift (getitem result "status") ;;
        if eq_str status "loading" then
          raise (http 503 "Model is loading. Please retry in 30 seconds")
        else
          model_config <-
            lift (match AVAILABLE_MODELS settings !! DEFAULT_MODEL settings with
                  | Some c => Ok c
                  | None => Raise (KeyError (DEFAULT_MODEL settings))
                  end) ;;
          text <- lift (getitem result "text") ;;
          model_id <- lift (getitem model_config "id") ;;
          let transcription_data :=
            {| TranscriptionCreate.filename := upload_filename audio;
               TranscriptionCreate.file_size_mb := Num.round2 file_size_mb;
               TranscriptionCreate.content_type := content_type;
               TranscriptionCreate.text := text;
               TranscriptionCreate.processing_time_seconds := Num.round2 elapsed_time;
               TranscriptionCreate.model := model_id;
               TranscriptionCreate.provider := "huggingface" |} in
          db_transcription <-
            call (Db (TranscriptionService.create_transcription transcription_data)) ;;
          ret (filter_transcription_for_role db_transcription current_user).

Definition get_transcriptions (skip limit : Z) (current_user : User)
  : M TranscriptionListResponse :=
  if negb (query_ok skip limit) then raise RequestValidationError else
  transcriptions <- call (Db (TranscriptionService.get_transcriptions skip limit)) ;;
  total <- call (Db TranscriptionService.count_transcriptions) ;;
  let filtered_items :=
    (fun t => filter_transcription_for_role t current_user) <$> transcriptions in
  q <- lift (floordiv skip limit) ;;
  ret {| total := total;
         items := filtered_items;
         page := q + 1;
         page_size := limit |}.

Definition get_transcription (transcription_id : Z) (current_user : User)
  : M RoleView :=
  transcription <- call (Db (TranscriptionService.get_transcription transcription_id)) ;;
  match transcription with
  | None => raise (http 404 "Transcription not found")
  | Some transcription =>
      ret (filter_transcription_for_role transcription current_user)
  end.

Definition delete_transcription (transcription_id : Z) (current_user : User)
  : M (gmap string pyobj) :=
  success <- call (Db (TranscriptionService.delete_transcription transcription_id)) ;;
  if negb success then raise (http 404 "Transcription not found")
  else ret {[ "message" := PStr "Transcription deleted successfully" ]}.

(** The common tail of the workflow handlers: refuse a failed update,
    filter by role, wrap. *)
Definition finish_step (updated : option Transcription.t) (failure done : string)
    (current_user : User) : M WorkflowStepResponse :=
  match updated with
  | None => raise (http 500 failure)
  | Some updated =>
      let filtered_transcription := filter_transcription_for_role updated current_user in
      ret {| success := true;
             message := done;
             transcription := filtered_transcription |}
  end.

Definition generate_medical_note (transcription_id : Z) (current_user : User)
  : M WorkflowStepResponse :=
  transcription <- call (Db (TranscriptionService.get_transcription transcription_id)) ;;
  match transcription with
  | None => raise (http 404 "Transcription not found")
  | Some transcription =>
      medical_note <-
        call_exn (Ai (AIMedicalService.generate_medical_note
                        (Transcription.text transcription))) ;;
      updated <-
        call (Db (TranscriptionService.update_medical_note transcription_id medical_note)) ;;
      finish_step updated "Failed to update medical note"
        "Medical note generated successfully" current_user
  end.

Definition suggest_icd10_codes (transcription_id : Z) (current_user : User)
  : M WorkflowStepResponse :=
  transcription <- call (Db (TranscriptionService.get_transcription transcription_id)) ;;
  match transcription with
  | None => raise (http 404 "Transcription not found")
  | Some transcription =>
      if negb (truthy (Transcription.medical_note transcription)) then
        raise (http 400 "Medical note must be generated first")
      else
        icd10_codes <-
          call_exn (Ai (AIMedicalService.suggest_icd10_codes
                          (Transcription.medical_note transcription)
                          (Transcription.text transcription))) ;;
        updated <-
          call (Db (TranscriptionService.update_icd10_codes transcription_id icd10_codes)) ;;
        finish_step updated "Failed to update ICD-10 codes"
          "ICD-10 codes suggested successfully" current_user
  end.

Definition suggest_cpt_codes (transcription_id : Z) (current_user : User)
  : M WorkflowStepResponse :=
  transcription <- call (Db (TranscriptionService.get_transcription transcription_id)) ;;
  match transcription with
  | None => raise (http 404 "Transcription not found")
  | Some transcription =>
      if negb (truthy (Transcription.medical_note transcription)) then
        raise (http 400 "Medical note must be generated first")
      else
        cpt_codes <-
          call_exn (Ai (AIMedicalService.suggest_cpt_codes
                          (Transcription.medical_note transcription)
                          (Transcription.text transcription))) ;;
        updated <-
          call (Db (TranscriptionService.update_cpt_codes transcription_id cpt_codes)) ;;
        finish_step updated "Failed to update CPT codes"
          "CPT codes suggested successfully" current_user
  end.

Definition generate_cms1500_form (transcription_id : Z)
    (patient_info : option PatientInfo) (current_user : User)
  : M WorkflowStepResponse :=
  transcription <- call (Db (TranscriptionService.get_transcription transcription_id)) ;;
  match transcription with
  | None => raise (http 404 "Transcription not found")
  | Some transcription =>
      if negb (truthy (Transcription.medical_note transcription)) then
        raise (http 400 "Medical note must be generated first")
      else if negb (truthy (Transcription.icd10_codes transcription))
              || negb (truthy (Transcription.cpt_codes transcription)) then
        raise (http 400 "ICD-10 and CPT codes must be suggested first")
      else
        cms1500_form <-
          call_exn (Ai (AIMedicalService.generate_cms1500_form_data
                          (Transcription.medical_note transcription)
                          (Transcription.icd10_codes transcription)
                          (Transcription.cpt_codes transcription)
                          (patient_dict patient_info))) ;;
        updated <-
          call (Db (TranscriptionService.update_cms1500_form transcription_id cms1500_form)) ;;
        finish_step updated "Failed to update CMS-1500 form"
          "CMS-1500 form generated successfully" current_user
  end.

Definition run_full_workflow (transcription_id : Z)
    (patient_info : option PatientInfo) (current_user : User)
  : M WorkflowStepResponse :=
  transcription <- call (Db (TranscriptionService.get_transcription transcription_id)) ;;
  match transcription with
  | None => raise (http 404 "Transcription not found")
  | Some transcription =>
      workflow_result <-
        call_exn (Ai (AIMedicalService.run_full_workflow
                        (Transcription.text transcription)
                        (patient_dict patient_info))) ;;
      medical_note <- lift (getitem workflow_result "medical_note") ;;
      icd10_codes <- lift (getitem workflow_result "icd10_codes") ;;
      cpt_codes <- lift (getitem workflow_result "cpt_codes") ;;
      cms1500_form <- lift (getitem workflow_result "cms1500_form_data") ;;
      updated <-
        call (Db (TranscriptionService.update_full_workflow transcription_id
                    medical_note icd10_codes cpt_codes cms1500_form)) ;;
      finish_step updated "Failed to update workflow"
        "Full workflow completed successfully" current_user
  end.

(** ** Vocabulary of the properties *)

(** A workflow field that was never written. *)
Definition absent (v : pyobj) : Prop := v = PNone.

(** A code list that is missing or has no entry. *)
Definition absent_or_empty (v : pyobj) : Prop := v = PNone \/ v = PList [].

(** The four keys [run_full_workflow] reads from the combined result. *)
Definition full_workflow_keys : list string :=
  [ "medical_note"; "icd10_codes"; "cpt_codes"; "cms1500_form_data" ].

(** A combined result that lacks one of them.  Only the presence of the
    keys counts: the values are not looked at. *)
Definition lacks_key (workflow_result : gmap string pyobj) : Prop :=
  Exists (fun k => workflow_result !! k = None) full_workflow_keys.

(** An answer of the speech transcriber that follows its interface:
    status "error", "loading", or "success" together with a text. *)
Definition follows_contract (answer : gmap string pyobj) : Prop :=
  answer !! "status" = Some (PStr "error")
  \/ answer !! "status" = Some (PStr "loading")
  \/ (answer !! "status" = Some (PStr "success") /\ is_Some (answer !! "text")).

(** No call to the medical assistant, no write to the database. *)
Definition quiet (c : Call) : bool := negb (is_ai_call c) && negb (is_db_write c).

(** ** The record store

    Modelled from the spec: [TranscriptionService]
    ([services/transcription_service.py]) is not part of the sources at
    hand.  Section 4.2 of the spec fixes what is modelled here: [create]
    assigns the id and the timestamps; [list] is offset/limit over the
    records in creation order and the count is that of all records; every
    [update_*] is a partial update that answers with the updated record or
    with [None] when the id is unknown; [delete] is a hard delete that
    answers [False] for an unknown id.  [workflow_status] is the label of
    the furthest step completed and never regresses (section 3). *)
Module MemoryStore.

Record DB : Type := mkDB {
  rows : list Transcription.t;
  next_id : Z;
  now : Z
}.

Definition empty : DB := mkDB [] 1 0.

Definition has_id (i : Z) (t : Transcription.t) : bool := Transcription.id t =? i.

Definition get (i : Z) (db : DB) : option Transcription.t :=
  List.find (has_id i) (rows db).

Definition create (d : TranscriptionCreate.t) (db : DB) : Transcription.t * DB :=
  let t :=
    {| Transcription.id := next_id db;
       Transcription.filename := TranscriptionCreate.filename d;
       Transcription.file_size_mb := TranscriptionCreate.file_size_mb d;
       Transcription.content_type := TranscriptionCreate.content_type d;
       Transcription.text := TranscriptionCreate.text d;
       Transcription.processing_time_seconds :=
         TranscriptionCreate.processing_time_seconds d;
       Transcription.model := TranscriptionCreate.model d;
       Transcription.provider := TranscriptionCreate.provider d;
       Transcription.medical_note := PNone;
       Transcription.icd10_codes := PNone;
       Transcription.cpt_codes := PNone;
       Transcription.cms1500_form := PNone;
       Transcription.workflow_status := Raw;
       Transcription.created_at := now db;
       Transcription.updated_at := now db |} in
  (t, mkDB (rows db ++ [t])%list (next_id db + 1) (now db + 1)).

Definition list_page (skip limit : Z) (db : DB) : list Transcription.t :=
  take (Z.to_nat limit) (drop (Z.to_nat skip) (rows db)).

Definition count (db : DB) : Z := Z.of_nat (length (rows db)).

Definition delete (i : Z) (db : DB) : bool * DB :=
  match get i db with
  | None => (false, db)
  | Some _ =>
      (true, mkDB (List.filter (fun t => negb (has_id i t)) (rows db))
                  (next_id db) (now db))
  end.

Definition rank (s : WorkflowStatus) : Z :=
  match s with
  | Raw => 0
  | NoteGenerated => 1
  | CodesSuggested => 2
  | FormGenerated => 3
  end.

Definition reached (t : Transcription.t) : WorkflowStatus :=
  if truthy (Transcription.cms1500_form t) then FormGenerated
  else if truthy (Transcription.icd10_codes t) && truthy (Transcription.cpt_codes t)
       then CodesSuggested
  else if truthy (Transcription.medical_note t) then NoteGenerated
  else Raw.

(** The fields a step may write; [None] leaves a field as it is. *)
Record patch : Type := mkPatch {
  p_medical_note : option pyobj;
  p_icd10_codes : option pyobj;
  p_cpt_codes : option pyobj;
  p_cms1500_form : option pyobj
}.

Definition apply_patch (p : patch) (stamp : Z) (t : Transcription.t) : Transcription.t :=
  let t' :=
    {| Transcription.id := Transcription.id t;
       Transcription.filename := Transcription.filename t;
       Transcription.file_size_mb := Transcription.file_size_mb t;
       Transcription.content_type := Transcription.content_type t;
       Transcription.text := Transcription.text t;
       Transcription.processing_time_seconds := Transcription.processing_time_seconds t;
       Transcription.model := Transcription.model t;
       Transcription.provider := Transcription.provider t;
       Transcription.medical_note := default (Transcription.medical_note t) (p_medical_note p);
       Transcription.icd10_codes := default (Transcription.icd10_codes t) (p_icd10_codes p);
       Transcription.cpt_codes := default (Transcription.cpt_codes t) (p_cpt_codes p);
       Transcription.cms1500_form := default (Transcription.cms1500_form t) (p_cms1500_form p);
       Transcription.workflow_status := Transcription.workflow_status t;
       Transcription.created_at := Transcription.created_at t;
       Transcription.updated_at := stamp |} in
  if rank (Transcription.workflow_status t) <? rank (reached t') then
    {| Transcription.id := Transcription.id t';
       Transcription.filename := Transcription.filename t';
       Transcription.file_size_mb := Transcription.file_size_mb t';
       Transcription.content_type := Transcription.content_type t';
       Transcription.text := Transcription.text t';
       Transcription.processing_time_seconds := Transcription.processing_time_seconds t';
       Transcription.model := Transcription.model t';
       Transcription.provider := Transcription.provider t';
       Transcription.medical_note := Transcription.medical_note t';
       Transcription.icd10_codes := Transcription.icd10_codes t';
       Transcription.cpt_codes := Transcription.cpt_codes t';
       Transcription.cms1500_form := Transcription.cms1500_form t';
       Transcription.workflow_status := reached t';
       Transcription.created_at := Transcription.created_at t';
       Transcription.updated_at := Transcription.updated_at t' |}
  else t'.

Definition update (p : patch) (i : Z) (db : DB) : option Transcription.t * DB :=
  match get i db with
  | None => (None, db)
  | Some t =>
      let t' := apply_patch p (now db) t in
      (Some t',
       mkDB ((fun r => if has_id i r then t' else r) <$> rows db)
            (next_id db) (now db + 1))
  end.

#[global] Instance store : Store DB := {|
  store_create := create;
  store_list := list_page;
  store_count := count;
  store_get := get;
  store_delete := delete;
  store_update_medical_note i v := update (mkPatch (Some v) None None None) i;
  store_update_icd10_codes i v := update (mkPatch None (Some v) None None) i;
  store_update_cpt_codes i v := update (mkPatch None None (Some v) None) i;
  store_update_cms1500_form i v := update (mkPatch None None None (Some v)) i;
  store_update_full_workflow i a b c d :=
    update (mkPatch (Some a) (Some b) (Some c) (Some d)) i
|}.

End MemoryStore.

(** ** Sample data *)

Module Sample.

Definition doctor : User := mkUser 7 DOCTOR.
Definition admin : User := mkUser 1 ADMINISTRATOR.
Definition nurse : User := mkUser 9 (OTHER "nurse").

Definition settings : Settings :=
  {| ALLOWED_AUDIO_FORMATS :=
       [ "audio/mpeg"; "audio/wav"; "audio/m4a"; "audio/ogg"; "audio/flac";
         "audio/webm" ];
     MAX_FILE_SIZE_MB := 1;
     AVAILABLE_MODELS := {[ "whisper" := {[ "id" := PStr "openai/whisper-small" ]} ]};
     DEFAULT_MODEL := "whisper" |}.

Definition icd10 : pyobj :=
  PList [ PDict [ ("code", PStr "R51"); ("description", PStr "Headache") ] ].
Definition cpt : pyobj :=
  PList [ PDict [ ("code", PStr "99213"); ("modifier", PNone) ] ].
Definition form : pyobj :=
  PDict [ ("patient_name", PStr "Jane Doe"); ("diagnosis", icd10); ("procedures", cpt) ].

(** A record as [create] leaves it. *)
Definition raw (i : Z) : Transcription.t :=
  {| Transcription.id := i;
     Transcription.filename := Some "visit.webm";
     Transcription.file_size_mb := 0.25;
     Transcription.content_type := Some "audio/webm";
     Transcription.text := PStr "Patient reports headache";
     Transcription.processing_time_seconds := 1.5;
     Transcription.model := PStr "openai/whisper-small";
     Transcription.provider := "huggingface";
     Transcription.medical_note := PNone;
     Transcription.icd10_codes := PNone;
     Transcription.cpt_codes := PNone;
     Transcription.cms1500_form := PNone;
     Transcription.workflow_status := Raw;
     Transcription.created_at := i;
     Transcription.updated_at := i |}.

(** A record with every workflow field populated. *)
Definition complete : Transcription.t :=
  {| Transcription.id := 3;
     Transcription.filename := Some "visit.webm";
     Transcription.file_size_mb := 0.25;
     Transcription.content_type := Some "audio/webm";
     Transcription.text := PStr "Patient reports headache";
     Transcription.processing_time_seconds := 1.5;
     Transcription.model := PStr "openai/whisper-small";
     Transcription.provider := "huggingface";
     Transcription.medical_note := PStr "Patient presents with cephalalgia";
     Transcription.icd10_codes := icd10;
     Transcription.cpt_codes := cpt;
     Transcription.cms1500_form := form;
     Transcription.workflow_status := FormGenerated;
     Transcription.created_at := 3;
     Transcription.updated_at := 8 |}.

(** A record with a note and ICD-10 codes, but an empty CPT list. *)
Definition half_coded : Transcription.t :=
  {| Transcription.id := 4;
     Transcription.filename := Some "visit.webm";
     Transcription.file_size_mb := 0.25;
     Transcription.content_type := Some "audio/webm";
     Transcription.text := PStr "Patient reports headache";
     Transcription.processing_time_seconds := 1.5;
     Transcription.model := PStr "openai/whisper-small";
     Transcription.provider := "huggingface";
     Transcription.medical_note := PStr "Patient presents with cephalalgia";
     Transcription.icd10_codes := icd10;
     Transcription.cpt_codes := PList [];
     Transcription.cms1500_form := PNone;
     Transcription.workflow_status := NoteGenerated;
     Transcription.created_at := 4;
     Transcription.updated_at := 6 |}.

Definition db_of (l : list Transcription.t) : MemoryStore.DB :=
  MemoryStore.mkDB l 100 50.

(** Fifteen records, ids 1 to 15, in creation order. *)
Definition fifteen : MemoryStore.DB :=
  db_of (raw <$> [1; 2; 3; 4; 5; 6; 7; 8; 9; 10; 11; 12; 13; 14; 15]).

Definition full_result : gmap string pyobj :=
  {[ "medical_note" := PStr "Patient presents with cephalalgia";
     "icd10_codes" := icd10;
     "cpt_codes" := cpt;
     "cms1500_form_data" := form ]}.

(** The combined pipeline came back without the claim form. *)
Definition partial_result : gmap string pyobj :=
  {[ "medical_note" := PStr "Patient presents with cephalalgia";
     "icd10_codes" := icd10;
     "cpt_codes" := cpt ]}.

(** The combined pipeline produced the note only: the four keys are
    there, the codes and the claim form are empty. *)
Definition hollow_result : gmap string pyobj :=
  {[ "medical_note" := PStr "Patient presents with cephalalgia";
     "icd10_codes" := PNone;
     "cpt_codes" := PList [];
     "cms1500_form_data" := PNone ]}.

(** Collaborators that answer every transcription with [hf] and every
    combined pipeline run with [full]; the single steps succeed. *)
Definition env (hf full : result (gmap string pyobj)) : Collaborators :=
  {| hf_answer := fun X o =>
       match o in HuggingFaceService.op X return X with
       | HuggingFaceService.transcribe_audio _ _ => hf
       end;
     ai_answer := fun X o =>
       match o in AIMedicalService.op X return X with
       | AIMedicalService.generate_medical_note _ =>
           Ok (PStr "Patient presents with cephalalgia")
       | AIMedicalService.suggest_icd10_codes _ _ => Ok icd10
       | AIMedicalService.suggest_cpt_codes _ _ => Ok cpt
       | AIMedicalService.generate_cms1500_form_data _ _ _ _ => Ok form
       | AIMedicalService.run_full_workflow _ _ => full
       end;
     clock := fun n => inject_Z (Z.of_nat n) |}.

Definition hf_success : result (gmap string pyobj) :=
  Ok {[ "status" := PStr "success"; "text" := PStr "Patient reports headache" ]}.
Definition hf_error : result (gmap string pyobj) :=
  Ok {[ "status" := PStr "error"; "message" := PStr "model crashed" ]}.
Definition hf_loading : result (gmap string pyobj) :=
  Ok {[ "status" := PStr "loading" ]}.

Definition chunk : list Byte.byte := [ Byte.x1a; Byte.x45; Byte.xdf; Byte.xa3 ].

(** One byte more than a megabyte. *)
Definition oversized : list Byte.byte := repeat Byte.x00 (Nat.pow 2 20 + 1).

End Sample.

(** ** Further vocabulary *)

(** The calls of a request that only looked its record up. *)
Definition lookup_only (i : Z) : list Call :=
  [called (Db (TranscriptionService.get_transcription i))].

(** A view without any of the three billing and coding keys. *)
Definition hides_billing (v : RoleView) : Prop :=
  Forall (fun k => view_dict v !! k = None) billing_keys.

(** What a workflow handler returns once its update went through. *)
Definition step_done (message : string) (updated : Transcription.t) (u : User)
  : result WorkflowStepResponse :=
  Ok {| success := true;
        message := message;
        transcription := filter_transcription_for_role updated u |}.

(** A database whose records can be read but whose updates find nothing,
    as when the record is deleted between the lookup and the update. *)
Definition vanishing_store : Store MemoryStore.DB :=
  {| store_create := MemoryStore.create;
     store_list := MemoryStore.list_page;
     store_count := MemoryStore.count;
     store_get := MemoryStore.get;
     store_delete := MemoryStore.delete;
     store_update_medical_note := fun _ _ db => (None, db);
     store_update_icd10_codes := fun _ _ db => (None, db);
     store_update_cpt_codes := fun _ _ db => (None, db);
     store_update_cms1500_form := fun _ _ db => (None, db);
     store_update_full_workflow := fun _ _ _ _ _ db => (None, db) |}.

(** What each single step asks the medical assistant about a record. *)
Definition note_request (t : Transcription.t) : AIMedicalService.op (result pyobj) :=
  AIMedicalService.generate_medical_note (Transcription.text t).
Definition icd10_request (t : Transcription.t) : AIMedicalService.op (result pyobj) :=
  AIMedicalService.suggest_icd10_codes (Transcription.medical_note t) (Transcription.text t).
Definition cpt_request (t : Transcription.t) : AIMedicalService.op (result pyobj) :=
  AIMedicalService.suggest_cpt_codes (Transcription.medical_note t) (Transcription.text t).
Definition cms1500_request (t : Transcription.t) (p : option PatientInfo)
  : AIMedicalService.op (result pyobj) :=
  AIMedicalService.generate_cms1500_form_data (Transcription.medical_note t)
    (Transcription.icd10_codes t) (Transcription.cpt_codes t) (patient_dict p).

(** The record has what generate-cms1500 needs. *)
Definition ready_for_form (t : Transcription.t) : bool :=
  truthy (Transcription.medical_note t)
  && truthy (Transcription.icd10_codes t)
  && truthy (Transcription.cpt_codes t).

(** Collaborators whose medical assistant raises on every request. *)
Definition assistant_down : Collaborators :=
  {| hf_answer := hf_answer (Sample.env Sample.hf_success (Ok Sample.full_result));
     ai_answer := fun X o =>
       match o in AIMedicalService.op X return X with
       | AIMedicalService.generate_medical_note _ => Raise (CollaboratorError (PStr "timeout"))
       | AIMedicalService.suggest_icd10_codes _ _ => Raise (CollaboratorError (PStr "timeout"))
       | AIMedicalService.suggest_cpt_codes _ _ => Raise (CollaboratorError (PStr "timeout"))
       | AIMedicalService.generate_cms1500_form_data _ _ _ _ =>
           Raise (CollaboratorError (PStr "timeout"))
       | AIMedicalService.run_full_workflow _ _ => Raise (CollaboratorError (PStr "timeout"))
       end;
     clock := fun n => inject_Z (Z.of_nat n) |}.

(** A file of exactly one megabyte. *)
Definition one_megabyte : list Byte.byte := repeat Byte.x00 (Nat.pow 2 20).

(** The lowered file name the extension table is matched against. *)
Definition lowered_name (audio : UploadFile) : string :=
  Str.lower (default "" (upload_filename audio)).

(** The first calls of an upload that passed both checks. *)
Definition transcription_call (audio : UploadFile) : Call :=
  called (Hf (HuggingFaceService.transcribe_audio (upload_bytes audio)
                (detect_content_type audio))).

(** Settings whose default model is missing from the table of models. *)
Definition unconfigured : Settings :=
  {| ALLOWED_AUDIO_FORMATS := ALLOWED_AUDIO_FORMATS Sample.settings;
     MAX_FILE_SIZE_MB := MAX_FILE_SIZE_MB Sample.settings;
     AVAILABLE_MODELS := ∅;
     DEFAULT_MODEL := "whisper" |}.

(** * Properties *)

(** ** The role filter *)

Lemma filter_for_doctor (t : Transcription.t) (u : User) :
  role u = DOCTOR ->
  exists r, filter_transcription_for_role t u = DoctorView r
    /\ view_dict (DoctorView r)
       = delete "icd10_codes" (delete "cpt_codes" (delete "cms1500_form" (record_dict t))).
Proof.
  intros Hrole. unfold filter_transcription_for_role.
  destruct (decide (role u = DOCTOR)) as [_|Hn]; [|contradiction].
  eexists. split; [reflexivity|]. destruct t. vm_compute. reflexivity.
Qed.

Lemma filter_for_others (t : Transcription.t) (u : User) :
  role u <> DOCTOR ->
  filter_transcription_for_role t u = FullView (TranscriptionResponse.from_orm t).
Proof.
  intros Hrole. unfold filter_transcription_for_role.
  destruct (decide (role u = DOCTOR)); [contradiction|reflexivity].
Qed.

Lemma full_view_dict (t : Transcription.t) :
  view_dict (FullView (TranscriptionResponse.from_orm t)) = record_dict t.
Proof. destruct t. reflexivity. Qed.

Lemma record_dict_billing (t : Transcription.t) :
  record_dict t !! "icd10_codes" = Some (Transcription.icd10_codes t)
  /\ record_dict t !! "cpt_codes" = Some (Transcription.cpt_codes t)
  /\ record_dict t !! "cms1500_form" = Some (Transcription.cms1500_form t).
Proof. destruct t. repeat split; vm_compute; reflexivity. Qed.

(** C1. For every transcription record, the view handed to a Doctor has
    none of the keys icd10_codes, cpt_codes and cms1500_form (it is the
    record without exactly these three), and the view handed to an
    Administrator is the full record, with all three. *)
Theorem role_filter_confidentiality
    (t : Transcription.t) (clinician administrator : User)
    (Hc : role clinician = DOCTOR) (Ha : role administrator = ADMINISTRATOR) :
  let seen := view_dict (filter_transcription_for_role t clinician) in
  let full := view_dict (filter_transcription_for_role t administrator) in
  (Forall (fun k => seen !! k = None) billing_keys
   /\ seen = delete "icd10_codes" (delete "cpt_codes" (delete "cms1500_form" (record_dict t))))
  /\ (full = record_dict t
      /\ full !! "icd10_codes" = Some (Transcription.icd10_codes t)
      /\ full !! "cpt_codes" = Some (Transcription.cpt_codes t)
      /\ full !! "cms1500_form" = Some (Transcription.cms1500_form t)).
Proof.
  intros seen full. split.
  - destruct (filter_for_doctor t clinician Hc) as (r & Hr & Hd).
    subst seen. rewrite Hr, Hd. split; [|reflexivity].
    unfold billing_keys. repeat apply Forall_cons_2; [| | |apply Forall_nil_2].
    + apply lookup_delete_eq.
    + rewrite lookup_delete_ne by discriminate. apply lookup_delete_eq.
    + do 2 (rewrite lookup_delete_ne by discriminate). apply lookup_delete_eq.
  - subst full. rewrite filter_for_others by (rewrite Ha; discriminate).
    rewrite full_view_dict. split; [reflexivity|]. apply record_dict_billing.
Qed.

Lemma role_filter_confidentiality_witness :
  let seen := view_dict (filter_transcription_for_role Sample.complete Sample.doctor) in
  let full := view_dict (filter_transcription_for_role Sample.complete Sample.admin) in
  (Forall (fun k => seen !! k = None) billing_keys
   /\ seen = delete "icd10_codes" (delete "cpt_codes"
               (delete "cms1500_form" (record_dict Sample.complete))))
  /\ (full = record_dict Sample.complete
      /\ full !! "icd10_codes" = Some Sample.icd10
      /\ full !! "cpt_codes" = Some Sample.cpt
      /\ full !! "cms1500_form" = Some Sample.form).
Proof.
  exact (role_filter_confidentiality Sample.complete Sample.doctor Sample.admin
           eq_refl eq_refl).
Defined.

(** C10. The filter looks at nothing but whether the role is Doctor: a
    user with any other role, known or not, gets the full record with the
    billing and coding fields. *)
Theorem role_filter_only_tests_doctor (t : Transcription.t) (u : User)
    (Hrole : role u <> DOCTOR) :
  filter_transcription_for_role t u = FullView (TranscriptionResponse.from_orm t)
  /\ view_dict (filter_transcription_for_role t u) = record_dict t
  /\ view_dict (filter_transcription_for_role t u) !! "icd10_codes"
     = Some (Transcription.icd10_codes t)
  /\ view_dict (filter_transcription_for_role t u) !! "cpt_codes"
     = Some (Transcription.cpt_codes t)
  /\ view_dict (filter_transcription_for_role t u) !! "cms1500_form"
     = Some (Transcription.cms1500_form t).
Proof.
  rewrite (filter_for_others t u Hrole), full_view_dict.
  split; [reflexivity|]. split; [reflexivity|]. apply record_dict_billing.
Qed.

Lemma role_filter_only_tests_doctor_witness :
  Sample.nurse.(role) <> DOCTOR
  /\ view_dict (filter_transcription_for_role Sample.complete Sample.nurse)
     = record_dict Sample.complete
  /\ view_dict (filter_transcription_for_role Sample.complete Sample.nurse) !! "cms1500_form"
     = Some Sample.form.
Proof.
  assert (H : role Sample.nurse <> DOCTOR) by discriminate.
  split; [exact H|].
  destruct (role_filter_only_tests_doctor Sample.complete Sample.nurse H)
    as (_ & Hd & _ & _ & Hf).
  split; [exact Hd | exact Hf].
Defined.

(** ** The workflow handlers *)

Section Workflow.
Context {DB : Type} `{Store DB} (env : Collaborators).

Lemma suggest_icd10_without_note db i u t :
  store_get i db = Some t ->
  truthy (Transcription.medical_note t) = false ->
  serve env (suggest_icd10_codes i u) db
  = (Raise (http 400 "Medical note must be generated first"), db,
     [called (Db (TranscriptionService.get_transcription i))]).
Proof.
  intros Hget Hnote. unfold serve, suggest_icd10_codes. cbn.
  rewrite Hget, Hnote. reflexivity.
Qed.

Lemma suggest_cpt_without_note db i u t :
  store_get i db = Some t ->
  truthy (Transcription.medical_note t) = false ->
  serve env (suggest_cpt_codes i u) db
  = (Raise (http 400 "Medical note must be generated first"), db,
     [called (Db (TranscriptionService.get_transcription i))]).
Proof.
  intros Hget Hnote. unfold serve, suggest_cpt_codes. cbn.
  rewrite Hget, Hnote. reflexivity.
Qed.

Lemma generate_cms1500_without_codes db i p u t :
  store_get i db = Some t ->
  truthy (Transcription.icd10_codes t) = false
  \/ truthy (Transcription.cpt_codes t) = false ->
  serve env (generate_cms1500_form i p u) db
  = (Raise (http 400
             (if truthy (Transcription.medical_note t)
              then "ICD-10 and CPT codes must be suggested first"
              else "Medical note must be generated first")),
     db, [called (Db (TranscriptionService.get_transcription i))]).
Proof.
  intros Hget Hcodes. unfold serve, generate_cms1500_form. cbn.
  rewrite Hget.
  destruct (truthy (Transcription.medical_note t)); [|reflexivity].
  cbn. destruct Hcodes as [-> | ->]; [reflexivity|].
  rewrite orb_true_r. reflexivity.
Qed.

Lemma absent_or_empty_falsy v : absent_or_empty v -> truthy v = false.
Proof. intros [-> | ->]; reflexivity. Qed.

(** C2. On an existing record without a medical note, suggest-icd10 and
    suggest-cpt both fail with status 400 and the detail "Medical note
    must be generated first"; on an existing record whose ICD-10 or CPT
    list is absent or empty, generate-cms1500 fails with status 400.  In
    each case the only call made is the lookup of the record: the
    medical assistant is not called and the database is left as it
    was. *)
Theorem workflow_preconditions db i p u t
    (Hget : store_get i db = Some t) :
  let lookup := [called (Db (TranscriptionService.get_transcription i))] in
  forallb quiet lookup = true
  /\ (absent (Transcription.medical_note t) ->
      serve env (suggest_icd10_codes i u) db
      = (Raise (http 400 "Medical note must be generated first"), db, lookup)
      /\ serve env (suggest_cpt_codes i u) db
         = (Raise (http 400 "Medical note must be generated first"), db, lookup))
  /\ (absent_or_empty (Transcription.icd10_codes t)
      \/ absent_or_empty (Transcription.cpt_codes t) ->
      exists detail,
        serve env (generate_cms1500_form i p u) db
        = (Raise (http 400 detail), db, lookup)).
Proof.
  intros lookup. split; [reflexivity|]. split.
  - intros Hnote. unfold absent in Hnote. split.
    + apply suggest_icd10_without_note with t; [assumption|]. now rewrite Hnote.
    + apply suggest_cpt_without_note with t; [assumption|]. now rewrite Hnote.
  - intros Hcodes. eexists.
    apply generate_cms1500_without_codes with (t := t); [assumption|].
    destruct Hcodes as [Hc | Hc]; [left | right];
      now apply absent_or_empty_falsy.
Qed.

Lemma run_full_calls_assistant db i p u t :
  store_get i db = Some t ->
  exists rest,
    calls (serve env (run_full_workflow i p u) db)
    = called (Db (TranscriptionService.get_transcription i))
      :: called (Ai (AIMedicalService.run_full_workflow
                       (Transcription.text t) (patient_dict p)))
      :: rest
    /\ existsb is_ai_call rest = false
    /\ forallb (fun c => negb (is_db_write c) || is_full_update c) rest = true
    /\ (length rest <= 1)%nat.
Proof.
  intros Hget. unfold serve, run_full_workflow. cbn. rewrite Hget. cbn.
  destruct (ai_answer env _ _) as [wr|e]; cbn;
    [|exists []; repeat split; cbn; lia].
  unfold getitem.
  destruct (wr !! "medical_note"); cbn; [|exists []; repeat split; cbn; lia].
  destruct (wr !! "icd10_codes"); cbn; [|exists []; repeat split; cbn; lia].
  destruct (wr !! "cpt_codes"); cbn; [|exists []; repeat split; cbn; lia].
  destruct (wr !! "cms1500_form_data"); cbn; [|exists []; repeat split; cbn; lia].
  destruct (store_update_full_workflow _ _ _ _ _ _) as [[u'|] db'];
    cbn; eexists [_]; repeat split; cbn; lia.
Qed.

(** C3, as the code has it.  On an existing record, whatever its workflow
    fields hold, run_full asks the medical assistant once, for the
    combined pipeline, and writes at most once, through
    [update_full_workflow] with the four values together.  When the
    assistant raises, or its result lacks one of the four keys, the
    request fails and the database is left as it was.  A result that has
    the four keys is written as it is: the values are not inspected. *)
Theorem run_full_all_or_nothing db i p u t
    (Hget : store_get i db = Some t) :
  let ask :=
    AIMedicalService.run_full_workflow (Transcription.text t) (patient_dict p) in
  let begun :=
    [ called (Db (TranscriptionService.get_transcription i)); called (Ai ask) ] in
  let r := serve env (run_full_workflow i p u) db in
  (exists rest,
     calls r = (begun ++ rest)%list
     /\ existsb is_ai_call rest = false
     /\ forallb (fun c => negb (is_db_write c) || is_full_update c) rest = true
     /\ (length rest <= 1)%nat)
  /\ (forall e, ai_answer env _ ask = Raise e -> r = (Raise e, db, begun))
  /\ (forall wr, ai_answer env _ ask = Ok wr -> lacks_key wr ->
        exists k, k ∈ full_workflow_keys /\ r = (Raise (KeyError k), db, begun))
  /\ (forall wr a b c d, ai_answer env _ ask = Ok wr ->
        wr !! "medical_note" = Some a -> wr !! "icd10_codes" = Some b ->
        wr !! "cpt_codes" = Some c -> wr !! "cms1500_form_data" = Some d ->
        let write := store_update_full_workflow i a b c d db in
        calls r
        = (begun ++ [called (Db (TranscriptionService.update_full_workflow i a b c d))])%list
        /\ db_after r = write.2
        /\ outcome r
           = match write.1 with
             | None => Raise (http 500 "Failed to update workflow")
             | Some t' =>
                 Ok {| success := true;
                       message := "Full workflow completed successfully";
                       transcription := filter_transcription_for_role t' u |}
             end).
Proof.
  intros ask begun r. split; [|split; [|split]].
  - destruct (run_full_calls_assistant db i p u t Hget) as (rest & Hc & Hr).
    exists rest. split; [exact Hc | exact Hr].
  - intros e He. subst r. unfold serve, run_full_workflow. cbn.
    rewrite Hget. cbn. fold ask. rewrite He. reflexivity.
  - intros wr Hwr Hp. subst r. unfold serve, run_full_workflow. cbn.
    rewrite Hget. cbn. fold ask. rewrite Hwr.
    unfold lacks_key, full_workflow_keys in Hp. unfold getitem.
    destruct (wr !! "medical_note") eqn:E1;
      [|exists "medical_note"; split; [set_solver|reflexivity]].
    destruct (wr !! "icd10_codes") eqn:E2;
      [|exists "icd10_codes"; split; [set_solver|reflexivity]].
    destruct (wr !! "cpt_codes") eqn:E3;
      [|exists "cpt_codes"; split; [set_solver|reflexivity]].
    destruct (wr !! "cms1500_form_data") eqn:E4;
      [|exists "cms1500_form_data"; split; [set_solver|reflexivity]].
    exfalso.
    repeat (apply Exists_cons in Hp; destruct Hp as [Hp|Hp]; [congruence|]).
    inversion Hp.
  - intros wr a b c d Hwr Ha Hb Hc Hd write. subst r write.
    unfold serve, run_full_workflow. cbn. rewrite Hget. cbn. fold ask.
    rewrite Hwr. unfold getitem. rewrite Ha, Hb, Hc, Hd. cbn.
    destruct (store_update_full_workflow i a b c d db) as [[t'|] db'];
      cbn; repeat split.
Qed.

End Workflow.

Lemma workflow_preconditions_witness :
  let db := Sample.db_of [Sample.raw 1; Sample.half_coded] in
  let e := Sample.env Sample.hf_success (Ok Sample.full_result) in
  (serve e (suggest_icd10_codes 1 Sample.admin) db
   = (Raise (http 400 "Medical note must be generated first"), db,
      [called (Db (TranscriptionService.get_transcription 1))])
   /\ serve e (suggest_cpt_codes 1 Sample.admin) db
      = (Raise (http 400 "Medical note must be generated first"), db,
         [called (Db (TranscriptionService.get_transcription 1))]))
  /\ exists detail,
       serve e (generate_cms1500_form 4 None Sample.admin) db
       = (Raise (http 400 detail), db,
          [called (Db (TranscriptionService.get_transcription 4))]).
Proof.
  intros db e. split.
  - refine (proj1 (proj2 (workflow_preconditions e db 1 None Sample.admin
                            (Sample.raw 1) eq_refl)) _).
    reflexivity.
  - refine (proj2 (proj2 (workflow_preconditions e db 4 None Sample.admin
                            Sample.half_coded eq_refl)) _).
    right. right. reflexivity.
Defined.

Lemma run_full_all_or_nothing_witness :
  let db := Sample.db_of [Sample.raw 1] in
  let e := Sample.env Sample.hf_success (Ok Sample.partial_result) in
  exists k, k ∈ full_workflow_keys
    /\ serve e (run_full_workflow 1 None Sample.admin) db
       = (Raise (KeyError k), db,
          [ called (Db (TranscriptionService.get_transcription 1));
            called (Ai (AIMedicalService.run_full_workflow
                          (PStr "Patient reports headache") PNone)) ]).
Proof.
  intros db e.
  refine (proj1 (proj2 (proj2 (run_full_all_or_nothing e db 1 None Sample.admin
                                 (Sample.raw 1) eq_refl)))
            Sample.partial_result eq_refl _).
  unfold lacks_key, full_workflow_keys.
  do 3 apply Exists_cons_tl. apply Exists_cons_hd. reflexivity.
Defined.

(** C3, as stated, fails for a partial result that keeps its four keys:
    when the combined pipeline produced the note only and answers None for
    the ICD-10 codes and the claim form and an empty list for the CPT
    codes, run_full passes these values to [update_full_workflow], the
    note of the record is overwritten, and the reply is the success
    message. *)
Lemma run_full_persists_hollow_result :
  let db := Sample.db_of [Sample.raw 1] in
  let e := Sample.env Sample.hf_success (Ok Sample.hollow_result) in
  let r := serve e (run_full_workflow 1 None Sample.admin) db in
  let note := PStr "Patient presents with cephalalgia" in
  (Sample.hollow_result !! "icd10_codes" = Some PNone
   /\ Sample.hollow_result !! "cpt_codes" = Some (PList [])
   /\ Sample.hollow_result !! "cms1500_form_data" = Some PNone)
  /\ calls r
     = [ called (Db (TranscriptionService.get_transcription 1));
         called (Ai (AIMedicalService.run_full_workflow
                       (PStr "Patient reports headache") PNone));
         called (Db (TranscriptionService.update_full_workflow 1 note PNone
                       (PList []) PNone)) ]
  /\ (exists reply,
        outcome r = Ok reply
        /\ success reply = true
        /\ message reply = "Full workflow completed successfully")
  /\ db_after r <> db
  /\ (exists before after,
        MemoryStore.get 1 db = Some before
        /\ MemoryStore.get 1 (db_after r) = Some after
        /\ Transcription.medical_note before = PNone
        /\ Transcription.medical_note after = note
        /\ Transcription.icd10_codes after = PNone
        /\ Transcription.cpt_codes after = PList []
        /\ Transcription.cms1500_form after = PNone).
Proof.
  cbv zeta. split; [|split; [|split; [|split]]].
  - repeat split; vm_compute; reflexivity.
  - vm_compute. reflexivity.
  - eexists. split; [vm_compute; reflexivity|]. split; reflexivity.
  - vm_compute. discriminate.
  - do 2 eexists. split; [vm_compute; reflexivity|].
    split; [vm_compute; reflexivity|]. repeat split.
Qed.

(** ** Content-type resolution *)

Lemma startswith_cons (r p : string) (a : ascii) :
  Str.startswith r (String a p) = true ->
  exists r', r = String a r' /\ Str.startswith r' p = true.
Proof.
  destruct r as [|b r']; cbn; [discriminate|].
  intros Hs. apply andb_prop in Hs as [Hab Hs].
  apply Ascii.eqb_eq in Hab. subst b. eauto.
Qed.

Lemma startswith_step (r p : string) (a b : ascii) :
  Str.startswith (String b r) (String a p) = Ascii.eqb a b && Str.startswith r p.
Proof. reflexivity. Qed.

Ltac decide_chars :=
  repeat match goal with
         | |- context [Ascii.eqb ?a ?b] =>
             let v := eval vm_compute in (Ascii.eqb a b) in
             change (Ascii.eqb a b) with v
         end.

(** The six extensions end in six different characters, so at most one
    of them ends a given name and the order of the table is immaterial. *)
Lemma match_extension_ends (filename_lower ext mime : string) :
  (ext, mime) ∈ ext_to_mime ->
  Str.endswith filename_lower ext = true ->
  match_extension ext_to_mime filename_lower = Some mime.
Proof.
  unfold ext_to_mime, Str.endswith. cbn [match_extension].
  unfold Str.endswith. generalize (Str.rev filename_lower). intros r Hin Hends.
  unfold Str.rev in *. cbn [Str.rev_onto] in *.
  repeat (apply elem_of_cons in Hin as [Heq | Hin];
          [injection Heq as -> ->; cbn [Str.rev_onto] in Hends;
           apply startswith_cons in Hends as (r' & -> & Hends);
           rewrite !startswith_step; decide_chars; cbn [andb];
           rewrite Hends; reflexivity|]).
  inversion Hin.
Qed.

Lemma lower_rev_onto (s acc : string) :
  Str.lower (Str.rev_onto s acc) = Str.rev_onto (Str.lower s) (Str.lower acc).
Proof.
  revert acc. induction s as [|c s IH]; intros acc; cbn; [reflexivity|].
  rewrite IH. reflexivity.
Qed.

Lemma startswith_lower (s p : string) :
  Str.startswith s p = true ->
  Str.startswith (Str.lower s) (Str.lower p) = true.
Proof.
  revert s. induction p as [|a p IH]; intros s; [reflexivity|].
  intros Hs. apply startswith_cons in Hs as (s' & -> & Hs). cbn.
  rewrite Ascii.eqb_refl. cbn. apply IH, Hs.
Qed.

(** A name that ends in an extension still does once lowered. *)
Lemma endswith_lower (s suffix : string) :
  Str.endswith s suffix = true ->
  Str.endswith (Str.lower s) (Str.lower suffix) = true.
Proof.
  unfold Str.endswith, Str.rev. intros Hs.
  apply startswith_lower in Hs. rewrite !lower_rev_onto in Hs. exact Hs.
Qed.

Lemma ext_to_mime_lower (ext mime : string) :
  (ext, mime) ∈ ext_to_mime ->
  Str.lower ext = ext /\ base_content_type (Some mime) = mime.
Proof.
  unfold ext_to_mime. intros Hin.
  repeat (apply elem_of_cons in Hin as [Heq | Hin];
          [injection Heq as -> ->; split; reflexivity|]).
  inversion Hin.
Qed.

(** C4, as the code has it.  For every upload declared as
    "application/octet-stream" whose file name, lowered, ends in one of
    the six extensions, the content type is resolved to the MIME type the
    table gives for that extension, which is also the base type that is
    validated. *)
Theorem octet_stream_resolved_by_extension
    (audio : UploadFile) (filename ext mime : string)
    (Hdeclared : upload_content_type audio = Some octet_stream)
    (Hname : upload_filename audio = Some filename)
    (Hext : (ext, mime) ∈ ext_to_mime)
    (Hends : Str.endswith (Str.lower filename) ext = true) :
  detect_content_type audio = Some mime
  /\ base_content_type (detect_content_type audio) = mime.
Proof.
  assert (Hd : detect_content_type audio = Some mime).
  { unfold detect_content_type. rewrite Hdeclared, Hname.
    rewrite bool_decide_eq_true_2 by reflexivity.
    assert (Hl : (if negb (String.eqb filename "") then Str.lower filename else "")
                 = Str.lower filename)
      by (destruct (String.eqb_spec filename ""); subst; reflexivity).
    rewrite Hl, (match_extension_ends _ ext mime Hext Hends). reflexivity. }
  rewrite Hd. split; [reflexivity|]. apply (ext_to_mime_lower ext mime Hext).
Qed.

Lemma octet_stream_resolved_by_extension_witness :
  let audio := mkUpload (Some "application/octet-stream") (Some "Visit-03.WAV")
                 Sample.chunk in
  detect_content_type audio = Some "audio/wav"
  /\ base_content_type (detect_content_type audio) = "audio/wav".
Proof.
  intros audio.
  apply (octet_stream_resolved_by_extension audio "Visit-03.WAV" ".wav" "audio/wav");
    [reflexivity | reflexivity | | reflexivity].
  unfold ext_to_mime. set_solver.
Defined.

(** C4, as stated, fails for an empty declared type: the extension table
    is consulted for "application/octet-stream" only.  An upload named
    talk.mp3 with an empty (or missing) content type keeps it, and is then
    refused as an unsupported format. *)
Lemma empty_content_type_not_resolved :
  let declared_empty := mkUpload (Some "") (Some "talk.mp3") Sample.chunk in
  let undeclared := mkUpload None (Some "talk.mp3") Sample.chunk in
  let e := Sample.env Sample.hf_success (Ok Sample.full_result) in
  Str.endswith "talk.mp3" ".mp3" = true
  /\ detect_content_type declared_empty = Some ""
  /\ detect_content_type declared_empty <> Some "audio/mpeg"
  /\ detect_content_type undeclared = None
  /\ serve e (transcribe_audio Sample.settings declared_empty Sample.admin)
       MemoryStore.empty
     = (Raise (http 400 "Unsupported format: "), MemoryStore.empty, [])
  /\ serve e (transcribe_audio Sample.settings undeclared Sample.admin)
       MemoryStore.empty
     = (Raise (http 400 "Unsupported format: None"), MemoryStore.empty, []).
Proof.
  cbv zeta. repeat split; try reflexivity. discriminate.
Qed.

(** ** Uploads *)

Lemma Qgtb_lt (a b : Q) : Num.Qgtb a b = true <-> (b < a)%Q.
Proof.
  unfold Num.Qgtb. rewrite negb_true_iff. split.
  - intros Hle. apply Qnot_le_lt. intros Hab.
    apply Qle_bool_iff in Hab. congruence.
  - intros Hlt. destruct (Qle_bool a b) eqn:Hle; [|reflexivity].
    apply Qle_bool_iff in Hle. exfalso. eapply Qlt_not_le; eassumption.
Qed.

Section Upload.
Context {DB : Type} `{Store DB} (env : Collaborators).

Lemma oversized_after_format_check settings audio u db :
  (inject_Z (MAX_FILE_SIZE_MB settings) < size_mb (upload_bytes audio))%Q ->
  serve env (transcribe_audio settings audio u) db
  = (Raise
       (if format_rejected settings (base_content_type (detect_content_type audio))
        then http 400 ("Unsupported format: " +:+ fstr_opt (detect_content_type audio))
        else http 413
               ("File too large: " +:+ Num.format_2f (size_mb (upload_bytes audio))
                +:+ " MB. Maximum: " +:+ pretty (MAX_FILE_SIZE_MB settings)
                +:+ " MB")),
     db, []).
Proof.
  intros Hbig. apply Qgtb_lt in Hbig. unfold serve, transcribe_audio.
  destruct (format_rejected _ _); [reflexivity|].
  rewrite Hbig. reflexivity.
Qed.

(** C6, as the code has it.  An upload whose size in MB exceeds the
    configured maximum is refused without any call to the transcription
    collaborator and without touching the database: with status 413 when
    its content type passes the format check, which comes first, and with
    status 400 when it does not. *)
Theorem oversized_upload_rejected settings audio u db
    (Hbig : (inject_Z (MAX_FILE_SIZE_MB settings) < size_mb (upload_bytes audio))%Q) :
  let r := serve env (transcribe_audio settings audio u) db in
  let rejected :=
    format_rejected settings (base_content_type (detect_content_type audio)) in
  calls r = []
  /\ existsb is_hf_call (calls r) = false
  /\ db_after r = db
  /\ (rejected = false ->
      exists detail, outcome r = Raise (http 413 detail))
  /\ (rejected = true ->
      outcome r
      = Raise (http 400 ("Unsupported format: " +:+ fstr_opt (detect_content_type audio)))).
Proof.
  intros r rejected. subst r.
  rewrite (oversized_after_format_check settings audio u db Hbig).
  fold rejected. repeat split.
  - intros ->. eexists. reflexivity.
  - intros ->. reflexivity.
Qed.

(** What a successful upload hands to the store. *)
Lemma upload_success_payload settings audio u db v :
  outcome (serve env (transcribe_audio settings audio u) db) = Ok v ->
  exists data,
    calls (serve env (transcribe_audio settings audio u) db)
    = [ called time_time;
        called (Hf (HuggingFaceService.transcribe_audio (upload_bytes audio)
                      (detect_content_type audio)));
        called time_time;
        called (Db (TranscriptionService.create_transcription data)) ]
    /\ TranscriptionCreate.content_type data = detect_content_type audio
    /\ TranscriptionCreate.filename data = upload_filename audio
    /\ TranscriptionCreate.file_size_mb data = Num.round2 (size_mb (upload_bytes audio))
    /\ db_after (serve env (transcribe_audio settings audio u) db)
       = (store_create data db).2
    /\ v = filter_transcription_for_role (store_create data db).1 u.
Proof.
  unfold serve, transcribe_audio, outcome, db_after, calls.
  destruct (format_rejected _ _); [discriminate|].
  destruct (Num.Qgtb _ _); [discriminate|].
  cbn. destruct (hf_answer env _ _) as [res|e]; cbn; [|discriminate].
  unfold getitem.
  destruct (res !! "status") as [status|]; cbn; [|discriminate].
  destruct (eq_str status "error"); cbn.
  { destruct (res !! "message"); cbn; discriminate. }
  destruct (eq_str status "loading"); cbn; [discriminate|].
  destruct (AVAILABLE_MODELS settings !! DEFAULT_MODEL settings) as [cfg|];
    cbn; [|discriminate].
  destruct (res !! "text") as [text|]; cbn; [|discriminate].
  destruct (cfg !! "id") as [model_id|]; cbn; [|discriminate].
  destruct (store_create _ db) as [t db'] eqn:Hc. cbn.
  intros [= <-]. eexists. split; [reflexivity|]. cbn. rewrite Hc.
  repeat split.
Qed.

(** C5, as the code has it.  On every successful upload the content type
    handed to the store is the resolved one, that is the declared type or,
    for "application/octet-stream", the type found from the extension,
    with whatever parameters follow a semicolon; the base type is
    computed for the format check only, which it passed. *)
Theorem stored_content_type_is_resolved settings audio u db v
    (Hok : outcome (serve env (transcribe_audio settings audio u) db) = Ok v) :
  let r := serve env (transcribe_audio settings audio u) db in
  format_rejected settings (base_content_type (detect_content_type audio)) = false
  /\ exists data,
       last (calls r) = Some (called (Db (TranscriptionService.create_transcription data)))
       /\ TranscriptionCreate.content_type data = detect_content_type audio
       /\ db_after r = (store_create data db).2.
Proof.
  intros r. split.
  - subst r. revert Hok. unfold serve, transcribe_audio, outcome.
    destruct (format_rejected _ _); [discriminate|reflexivity].
  - destruct (upload_success_payload settings audio u db v Hok)
      as (data & Hcalls & Hct & _ & _ & Hdb & _).
    exists data. subst r. rewrite Hcalls. repeat split; assumption.
Qed.

End Upload.

Lemma oversized_upload_rejected_witness :
  let audio := mkUpload (Some "audio/wav") (Some "long.wav") Sample.oversized in
  let e := Sample.env Sample.hf_success (Ok Sample.full_result) in
  let r := serve e (transcribe_audio Sample.settings audio Sample.admin)
             MemoryStore.empty in
  calls r = [] /\ exists detail, outcome r = Raise (http 413 detail).
Proof.
  intros audio e r.
  assert (Hbig : (inject_Z (MAX_FILE_SIZE_MB Sample.settings)
                  < size_mb (upload_bytes audio))%Q)
    by (vm_compute; reflexivity).
  destruct (oversized_upload_rejected e Sample.settings audio Sample.admin
              MemoryStore.empty Hbig) as (Hcalls & _ & _ & H413 & _).
  split; [exact Hcalls|]. apply H413. vm_compute. reflexivity.
Defined.

(** C6, as stated, fails when the format check refuses the upload first:
    a text file of one megabyte and one byte, against a maximum of 1 MB,
    is answered with status 400, not 413. *)
Lemma oversized_unsupported_upload_gets_400 :
  let audio := mkUpload (Some "text/plain") (Some "notes.txt") Sample.oversized in
  let e := Sample.env Sample.hf_success (Ok Sample.full_result) in
  let r := serve e (transcribe_audio Sample.settings audio Sample.admin)
             MemoryStore.empty in
  (inject_Z (MAX_FILE_SIZE_MB Sample.settings) < size_mb (upload_bytes audio))%Q
  /\ r = (Raise (http 400 "Unsupported format: text/plain"), MemoryStore.empty, [])
  /\ forall detail, outcome r <> Raise (http 413 detail).
Proof.
  cbv zeta. split; [vm_compute; reflexivity|].
  assert (Hr : serve (Sample.env Sample.hf_success (Ok Sample.full_result))
                 (transcribe_audio Sample.settings
                    (mkUpload (Some "text/plain") (Some "notes.txt") Sample.oversized)
                    Sample.admin) MemoryStore.empty
               = (Raise (http 400 "Unsupported format: text/plain"),
                  MemoryStore.empty, []))
    by (vm_compute; reflexivity).
  rewrite Hr. split; [reflexivity|]. intros detail. discriminate.
Qed.

Lemma stored_content_type_is_resolved_witness :
  let audio := mkUpload (Some "application/octet-stream") (Some "Visit-03.WAV")
                 Sample.chunk in
  let e := Sample.env Sample.hf_success (Ok Sample.full_result) in
  let r := serve e (transcribe_audio Sample.settings audio Sample.admin)
             MemoryStore.empty in
  format_rejected Sample.settings (base_content_type (detect_content_type audio)) = false
  /\ exists data,
       last (calls r) = Some (called (Db (TranscriptionService.create_transcription data)))
       /\ TranscriptionCreate.content_type data = detect_content_type audio
       /\ db_after r = (store_create data MemoryStore.empty).2.
Proof.
  intros audio e r.
  eapply (stored_content_type_is_resolved e Sample.settings audio Sample.admin
            MemoryStore.empty).
  vm_compute. reflexivity.
Defined.

(** C5, as stated, fails: an upload declared as "audio/webm;codecs=opus"
    passes the format check on its base type "audio/webm" and is stored
    with the parameters still attached. *)
Lemma stored_content_type_keeps_parameters :
  let audio := mkUpload (Some "audio/webm;codecs=opus") (Some "visit.webm")
                 Sample.chunk in
  let e := Sample.env Sample.hf_success (Ok Sample.full_result) in
  let r := serve e (transcribe_audio Sample.settings audio Sample.doctor)
             MemoryStore.empty in
  is_ok (outcome r) = true
  /\ base_content_type (detect_content_type audio) = "audio/webm"
  /\ Transcription.content_type <$> MemoryStore.rows (db_after r)
     = [Some "audio/webm;codecs=opus"]
  /\ Transcription.content_type <$> MemoryStore.rows (db_after r)
     <> [Some (base_content_type (detect_content_type audio))].
Proof.
  cbv zeta. split; [vm_compute; reflexivity|].
  split; [vm_compute; reflexivity|].
  assert (Hrows : Transcription.content_type <$>
            MemoryStore.rows
              (db_after
                 (serve (Sample.env Sample.hf_success (Ok Sample.full_result))
                    (transcribe_audio Sample.settings
                       (mkUpload (Some "audio/webm;codecs=opus") (Some "visit.webm")
                          Sample.chunk) Sample.doctor) MemoryStore.empty))
            = [Some "audio/webm;codecs=opus"])
    by (vm_compute; reflexivity).
  rewrite Hrows. split; [reflexivity|]. vm_compute. discriminate.
Qed.

(** ** Listing and deleting, on the record store *)

Lemma get_after_filter (i : Z) (l : list Transcription.t) :
  List.find (MemoryStore.has_id i)
    (List.filter (fun t => negb (MemoryStore.has_id i t)) l) = None.
Proof.
  induction l as [|t l IH]; [reflexivity|]. cbn.
  destruct (MemoryStore.has_id i t) eqn:Hid; cbn; [exact IH|].
  rewrite Hid. exact IH.
Qed.

Lemma delete_present env (db : MemoryStore.DB) i u t :
  MemoryStore.get i db = Some t ->
  serve env (delete_transcription i u) db
  = (Ok {[ "message" := PStr "Transcription deleted successfully" ]},
     (MemoryStore.delete i db).2,
     [called (Db (TranscriptionService.delete_transcription i))])
  /\ MemoryStore.get i (MemoryStore.delete i db).2 = None.
Proof.
  intros Hget. unfold serve, delete_transcription. cbn.
  unfold MemoryStore.delete. rewrite Hget. cbn. split; [reflexivity|].
  unfold MemoryStore.get. cbn. apply get_after_filter.
Qed.

Lemma delete_missing env (db : MemoryStore.DB) i u :
  MemoryStore.get i db = None ->
  serve env (delete_transcription i u) db
  = (Raise (http 404 "Transcription not found"), db,
     [called (Db (TranscriptionService.delete_transcription i))]).
Proof.
  intros Hget. unfold serve, delete_transcription. cbn.
  unfold MemoryStore.delete. rewrite Hget. reflexivity.
Qed.

(** C8. Deleting an id that is stored succeeds with the confirmation
    message and removes the record, so that deleting the same id again is
    answered with 404 "Transcription not found"; deleting an id that is
    not stored is always answered with that 404, and changes nothing. *)
Theorem delete_twice env (db : MemoryStore.DB) i u :
  let first := serve env (delete_transcription i u) db in
  let second := serve env (delete_transcription i u) (db_after first) in
  (is_Some (MemoryStore.get i db) ->
   outcome first = Ok {[ "message" := PStr "Transcription deleted successfully" ]}
   /\ MemoryStore.get i (db_after first) = None
   /\ outcome second = Raise (http 404 "Transcription not found")
   /\ db_after second = db_after first)
  /\ (MemoryStore.get i db = None ->
      outcome first = Raise (http 404 "Transcription not found")
      /\ db_after first = db).
Proof.
  intros first second. split.
  - intros [t Hget]. subst second first.
    destruct (delete_present env db i u t Hget) as [Hfirst Hgone].
    rewrite Hfirst. unfold db_after at 2 3 4. cbn [fst snd].
    rewrite (delete_missing env _ i u Hgone). repeat split. exact Hgone.
  - intros Hget. subst first. rewrite (delete_missing env db i u Hget).
    split; reflexivity.
Qed.

Lemma delete_twice_witness :
  let e := Sample.env Sample.hf_success (Ok Sample.full_result) in
  let first := serve e (delete_transcription 7 Sample.admin) Sample.fifteen in
  let second := serve e (delete_transcription 7 Sample.admin) (db_after first) in
  (outcome first = Ok {[ "message" := PStr "Transcription deleted successfully" ]}
   /\ MemoryStore.get 7 (db_after first) = None
   /\ outcome second = Raise (http 404 "Transcription not found")
   /\ db_after second = db_after first)
  /\ (outcome (serve e (delete_transcription 16 Sample.admin) Sample.fifteen)
      = Raise (http 404 "Transcription not found")
      /\ db_after (serve e (delete_transcription 16 Sample.admin) Sample.fifteen)
         = Sample.fifteen).
Proof.
  intros e first second. split.
  - apply (proj1 (delete_twice e Sample.fifteen 7 Sample.admin)).
    exists (Sample.raw 7). reflexivity.
  - apply (proj2 (delete_twice e Sample.fifteen 16 Sample.admin)). reflexivity.
Defined.

Lemma query_ok_bounds skip limit :
  query_ok skip limit = true -> 0 <= skip /\ 1 <= limit <= 100.
Proof. unfold query_ok. intros Hq. rewrite !andb_true_iff in Hq. lia. Qed.

Lemma list_response env (db : MemoryStore.DB) skip limit u :
  query_ok skip limit = true ->
  serve env (get_transcriptions skip limit u) db
  = (Ok {| total := MemoryStore.count db;
           items := (fun t => filter_transcription_for_role t u)
                    <$> MemoryStore.list_page skip limit db;
           page := skip / limit + 1;
           page_size := limit |},
     db,
     [ called (Db (TranscriptionService.get_transcriptions skip limit));
       called (Db TranscriptionService.count_transcriptions) ]).
Proof.
  intros Hq. unfold serve, get_transcriptions. rewrite Hq. cbn.
  unfold floordiv. apply query_ok_bounds in Hq.
  destruct (Z.eqb_spec limit 0) as [->|_]; [lia|]. reflexivity.
Qed.

Lemma list_page_length (db : MemoryStore.DB) skip limit :
  length (MemoryStore.list_page skip limit db)
  = (Z.to_nat limit `min` (length (MemoryStore.rows db) - Z.to_nat skip))%nat.
Proof. unfold MemoryStore.list_page. rewrite length_take, length_drop. reflexivity. Qed.

(** C7. A list request within the declared bounds reports the number of
    all records as total, (skip div limit) + 1 as page, limit as
    page_size, and at most limit items; over 15 records, skip=0 limit=10
    gives page 1, page_size 10, 10 items and total 15, and skip=10
    limit=10 gives page 2 with 5 items. *)
Theorem list_pagination env (db : MemoryStore.DB) skip limit u
    (Hq : query_ok skip limit = true) :
  exists resp,
    outcome (serve env (get_transcriptions skip limit u) db) = Ok resp
    /\ total resp = Z.of_nat (length (MemoryStore.rows db))
    /\ page resp = skip / limit + 1
    /\ page_size resp = limit
    /\ Z.of_nat (length (items resp)) <= limit
    /\ length (items resp)
       = (Z.to_nat limit `min` (length (MemoryStore.rows db) - Z.to_nat skip))%nat
    /\ (length (MemoryStore.rows db) = 15%nat -> limit = 10 ->
        (skip = 0 ->
         page resp = 1 /\ page_size resp = 10
         /\ length (items resp) = 10%nat /\ total resp = 15)
        /\ (skip = 10 -> page resp = 2 /\ length (items resp) = 5%nat)).
Proof.
  rewrite (list_response env db skip limit u Hq). eexists. split; [reflexivity|].
  cbn [total page page_size items]. rewrite length_fmap, list_page_length.
  apply query_ok_bounds in Hq. unfold MemoryStore.count.
  split; [reflexivity|]. split; [reflexivity|]. split; [reflexivity|].
  split; [lia|]. split; [reflexivity|].
  intros Hrows ->. rewrite Hrows. split.
  - intros ->. repeat split.
  - intros ->. repeat split.
Qed.

Lemma list_pagination_witness :
  let e := Sample.env Sample.hf_success (Ok Sample.full_result) in
  (exists resp,
     outcome (serve e (get_transcriptions 0 10 Sample.doctor) Sample.fifteen) = Ok resp
     /\ page resp = 1 /\ page_size resp = 10
     /\ length (items resp) = 10%nat /\ total resp = 15)
  /\ (exists resp,
        outcome (serve e (get_transcriptions 10 10 Sample.doctor) Sample.fifteen) = Ok resp
        /\ page resp = 2 /\ length (items resp) = 5%nat).
Proof.
  intros e. split.
  - destruct (list_pagination e Sample.fifteen 0 10 Sample.doctor eq_refl)
      as (resp & Hr & _ & _ & _ & _ & _ & Hex).
    exists resp. split; [exact Hr|].
    exact (proj1 (Hex eq_refl eq_refl) eq_refl).
  - destruct (list_pagination e Sample.fifteen 10 10 Sample.doctor eq_refl)
      as (resp & Hr & _ & _ & _ & _ & _ & Hex).
    exists resp. split; [exact Hr|].
    exact (proj2 (Hex eq_refl eq_refl) eq_refl).
Defined.

(** ** Chunks *)

Section Chunk.
Context {DB : Type} `{Store DB} (env : Collaborators).

Lemma chunk_served audio u db answer :
  upload_bytes audio <> [] ->
  hf_answer env _ (HuggingFaceService.transcribe_audio (upload_bytes audio)
                     (chunk_content_type audio)) = Ok answer ->
  serve env (transcribe_audio_chunk audio u) db
  = (match answer !! "status" with
     | None => Raise (KeyError "status")
     | Some status =>
         if eq_str status "error" then
           Ok {[ "text" := PStr ""; "status" := PStr "error";
                 "message" := dict_get answer "message" (PStr "Error transcribing") ]}
         else if eq_str status "loading" then
           Ok {[ "text" := PStr ""; "status" := PStr "loading" ]}
         else match answer !! "text" with
              | None => Raise (KeyError "text")
              | Some text => Ok {[ "text" := text; "status" := PStr "success" ]}
              end
     end : result (gmap string pyobj),
     db,
     [called (Hf (HuggingFaceService.transcribe_audio (upload_bytes audio)
                    (chunk_content_type audio)))]).
Proof.
  intros Hne Hanswer. unfold serve, transcribe_audio_chunk.
  destruct (upload_bytes audio) as [|b bytes] eqn:Hbytes; [contradiction|].
  cbn. rewrite Hanswer. unfold getitem.
  destruct (answer !! "status") as [status|]; cbn; [|reflexivity].
  destruct (eq_str status "error"); cbn; [reflexivity|].
  destruct (eq_str status "loading"); cbn; [reflexivity|].
  destruct (answer !! "text"); reflexivity.
Qed.

(** C9, as the code has it.  For a non-empty chunk, an answer of the
    transcriber with status "error" or "loading" is turned into a returned
    dictionary whose text is empty, not into an exception; and no answer
    that follows the transcriber's interface (error, loading, or success
    with a text) makes the handler raise.  Nothing is said of a
    transcriber that raises or answers outside its interface. *)
Theorem chunk_failure_degrades audio u db answer
    (Hne : upload_bytes audio <> [])
    (Hanswer : hf_answer env _ (HuggingFaceService.transcribe_audio
                                  (upload_bytes audio) (chunk_content_type audio))
               = Ok answer) :
  let r := serve env (transcribe_audio_chunk audio u) db in
  (answer !! "status" = Some (PStr "error") ->
   outcome r
   = Ok {[ "text" := PStr ""; "status" := PStr "error";
           "message" := dict_get answer "message" (PStr "Error transcribing") ]})
  /\ (answer !! "status" = Some (PStr "loading") ->
      outcome r = Ok {[ "text" := PStr ""; "status" := PStr "loading" ]})
  /\ (answer !! "status" = Some (PStr "error")
      \/ answer !! "status" = Some (PStr "loading") ->
      exists response, outcome r = Ok response /\ response !! "text" = Some (PStr ""))
  /\ (follows_contract answer -> exists response, outcome r = Ok response)
  /\ db_after r = db.
Proof.
  intros r. subst r. rewrite (chunk_served audio u db answer Hne Hanswer).
  unfold outcome, db_after. cbn [fst snd].
  split; [intros ->; reflexivity|]. split; [intros ->; reflexivity|].
  split; [|split; [|reflexivity]].
  - intros [-> | ->]; cbn; eexists; (split; [reflexivity|]);
      apply lookup_insert_eq.
  - intros [-> | [-> | [-> [text ->]]]]; cbn; eexists; reflexivity.
Qed.

End Chunk.

Lemma chunk_failure_degrades_witness :
  let audio := mkUpload (Some "audio/webm;codecs=opus") (Some "chunk-12.webm")
                 Sample.chunk in
  let r := serve (Sample.env Sample.hf_error (Ok Sample.full_result))
             (transcribe_audio_chunk audio Sample.doctor) MemoryStore.empty in
  outcome r
  = Ok {[ "text" := PStr ""; "status" := PStr "error";
          "message" := PStr "model crashed" ]}.
Proof.
  intros audio r.
  refine (proj1 (chunk_failure_degrades
                   (Sample.env Sample.hf_error (Ok Sample.full_result))
                   audio Sample.doctor MemoryStore.empty _ _ eq_refl) _).
  - discriminate.
  - reflexivity.
Defined.

(** C9, as stated, fails beyond the two softened statuses: the chunk
    handler has no exception handler of its own and reads the keys
    "status" and "text" by subscript.  On a non-empty chunk an exception
    of the transcriber goes through, a success answer without text raises
    KeyError, and so does an answer without status. *)
Lemma chunk_handler_raises :
  let audio := mkUpload (Some "audio/webm") (Some "chunk-3.webm") Sample.chunk in
  let run hf :=
    outcome (serve (Sample.env hf (Ok Sample.full_result))
               (transcribe_audio_chunk audio Sample.doctor) MemoryStore.empty) in
  upload_bytes audio <> []
  /\ run (Raise (CollaboratorError (PStr "timeout")))
     = Raise (CollaboratorError (PStr "timeout"))
  /\ run (Ok {[ "status" := PStr "success" ]}) = Raise (KeyError "text")
  /\ run (Ok {[ "text" := PStr "Patient reports headache" ]})
     = Raise (KeyError "status").
Proof.
  cbv zeta. split; [discriminate|]. repeat split; vm_compute; reflexivity.
Qed.

(** ** More on the workflow handlers *)

Section WorkflowSteps.
Context {DB : Type} `{Store DB} (env : Collaborators).

(** Every handler that takes a record id answers an unknown id with 404
    "Transcription not found", after the lookup alone: the medical
    assistant is not asked and nothing is written. *)
Theorem unknown_id_is_404 db i p u (Hget : store_get i db = None) :
  serve env (get_transcription i u) db
  = (Raise (http 404 "Transcription not found"), db, lookup_only i)
  /\ serve env (generate_medical_note i u) db
     = (Raise (http 404 "Transcription not found"), db, lookup_only i)
  /\ serve env (suggest_icd10_codes i u) db
     = (Raise (http 404 "Transcription not found"), db, lookup_only i)
  /\ serve env (suggest_cpt_codes i u) db
     = (Raise (http 404 "Transcription not found"), db, lookup_only i)
  /\ serve env (generate_cms1500_form i p u) db
     = (Raise (http 404 "Transcription not found"), db, lookup_only i)
  /\ serve env (run_full_workflow i p u) db
     = (Raise (http 404 "Transcription not found"), db, lookup_only i).
Proof.
  unfold serve, get_transcription, generate_medical_note, suggest_icd10_codes,
    suggest_cpt_codes, generate_cms1500_form, run_full_workflow.
  cbn. rewrite Hget. repeat split.
Qed.

(** On an existing record, the gate of each step is the truth value of
    the fields it needs, and nothing else: generate-note always reaches
    the assistant; suggest-icd10 and suggest-cpt reach it exactly when the
    note is non-empty (CPT does not wait for ICD-10); generate-cms1500
    exactly when the note and both code lists are non-empty. *)
Theorem step_gates db i p u t (Hget : store_get i db = Some t) :
  existsb is_ai_call (calls (serve env (generate_medical_note i u) db)) = true
  /\ existsb is_ai_call (calls (serve env (suggest_icd10_codes i u) db))
     = truthy (Transcription.medical_note t)
  /\ existsb is_ai_call (calls (serve env (suggest_cpt_codes i u) db))
     = truthy (Transcription.medical_note t)
  /\ existsb is_ai_call (calls (serve env (generate_cms1500_form i p u) db))
     = truthy (Transcription.medical_note t)
       && truthy (Transcription.icd10_codes t)
       && truthy (Transcription.cpt_codes t).
Proof.
  unfold serve, generate_medical_note, suggest_icd10_codes,
    suggest_cpt_codes, generate_cms1500_form.
  cbn. rewrite Hget. cbn. repeat split.
  - destruct (ai_answer env _ _) as [v|e]; cbn; [|reflexivity].
    destruct (store_update_medical_note i v db) as [[t'|] db']; reflexivity.
  - destruct (truthy (Transcription.medical_note t)); cbn; [|reflexivity].
    destruct (ai_answer env _ _) as [v|e]; cbn; [|reflexivity].
    destruct (store_update_icd10_codes i v db) as [[t'|] db']; reflexivity.
  - destruct (truthy (Transcription.medical_note t)); cbn; [|reflexivity].
    destruct (ai_answer env _ _) as [v|e]; cbn; [|reflexivity].
    destruct (store_update_cpt_codes i v db) as [[t'|] db']; reflexivity.
  - destruct (truthy (Transcription.medical_note t)); cbn; [|reflexivity].
    destruct (truthy (Transcription.icd10_codes t)); cbn; [|reflexivity].
    destruct (truthy (Transcription.cpt_codes t)); cbn; [|reflexivity].
    destruct (ai_answer env _ _) as [v|e]; cbn; [|reflexivity].
    destruct (store_update_cms1500_form i v db) as [[t'|] db']; reflexivity.
Qed.

End WorkflowSteps.

Lemma unknown_id_is_404_witness :
  let e := Sample.env Sample.hf_success (Ok Sample.full_result) in
  serve e (run_full_workflow 16 None Sample.admin) Sample.fifteen
  = (Raise (http 404 "Transcription not found"), Sample.fifteen, lookup_only 16).
Proof.
  intros e.
  exact (proj2 (proj2 (proj2 (proj2 (proj2
           (unknown_id_is_404 e Sample.fifteen 16 None Sample.admin eq_refl)))))).
Defined.

Lemma step_gates_witness :
  let e := Sample.env Sample.hf_success (Ok Sample.full_result) in
  let db := Sample.db_of [Sample.raw 1; Sample.half_coded] in
  existsb is_ai_call (calls (serve e (suggest_cpt_codes 4 Sample.admin) db)) = true
  /\ existsb is_ai_call (calls (serve e (generate_cms1500_form 4 None Sample.admin) db))
     = false.
Proof.
  intros e db.
  destruct (step_gates (H := MemoryStore.store) e db 4 None Sample.admin
              Sample.half_coded eq_refl)
    as (_ & _ & Hcpt & Hform).
  split; [exact Hcpt | exact Hform].
Defined.

Section WorkflowOutcomes.
Context {DB : Type} `{Store DB} (env : Collaborators).

Ltac enter h Hget :=
  unfold serve, h, note_request, icd10_request, cpt_request, cms1500_request in *;
  cbn; rewrite Hget; cbn.

Lemma ready_for_form_inv t :
  ready_for_form t = true ->
  truthy (Transcription.medical_note t) = true
  /\ truthy (Transcription.icd10_codes t) = true
  /\ truthy (Transcription.cpt_codes t) = true.
Proof. unfold ready_for_form. rewrite !andb_true_iff. tauto. Qed.

(** When the medical assistant raises during a single step, the handler
    lets the exception through and writes nothing: the calls are the
    lookup and the request to the assistant, and the database is
    unchanged. *)
Theorem assistant_failure_writes_nothing db i p u t e
    (Hget : store_get i db = Some t) :
  (ai_answer env _ (note_request t) = Raise e ->
   serve env (generate_medical_note i u) db
   = (Raise e, db, lookup_only i ++ [called (Ai (note_request t))])%list)
  /\ (truthy (Transcription.medical_note t) = true ->
      ai_answer env _ (icd10_request t) = Raise e ->
      serve env (suggest_icd10_codes i u) db
      = (Raise e, db, lookup_only i ++ [called (Ai (icd10_request t))])%list)
  /\ (truthy (Transcription.medical_note t) = true ->
      ai_answer env _ (cpt_request t) = Raise e ->
      serve env (suggest_cpt_codes i u) db
      = (Raise e, db, lookup_only i ++ [called (Ai (cpt_request t))])%list)
  /\ (ready_for_form t = true ->
      ai_answer env _ (cms1500_request t p) = Raise e ->
      serve env (generate_cms1500_form i p u) db
      = (Raise e, db, lookup_only i ++ [called (Ai (cms1500_request t p))])%list).
Proof.
  repeat split.
  - intros Hai. enter generate_medical_note Hget. rewrite Hai. reflexivity.
  - intros Hn Hai. enter suggest_icd10_codes Hget. rewrite Hn. cbn.
    rewrite Hai. reflexivity.
  - intros Hn Hai. enter suggest_cpt_codes Hget. rewrite Hn. cbn.
    rewrite Hai. reflexivity.
  - intros Hr Hai. apply ready_for_form_inv in Hr as (Hn & Hi & Hc).
    enter generate_cms1500_form Hget. rewrite Hn, Hi, Hc. cbn.
    rewrite Hai. reflexivity.
Qed.

(** A single step that goes through: the answer of the assistant is
    written with the update of that step and of no other, and the reply is
    the success message of the step with the role-filtered view of the
    record as the store returned it. *)
Theorem step_writes_the_answer db db' i p u t t' v
    (Hget : store_get i db = Some t) :
  (ai_answer env _ (note_request t) = Ok v ->
   store_update_medical_note i v db = (Some t', db') ->
   serve env (generate_medical_note i u) db
   = (step_done "Medical note generated successfully" t' u, db',
      lookup_only i ++ [ called (Ai (note_request t));
                         called (Db (TranscriptionService.update_medical_note i v)) ])%list)
  /\ (truthy (Transcription.medical_note t) = true ->
      ai_answer env _ (icd10_request t) = Ok v ->
      store_update_icd10_codes i v db = (Some t', db') ->
      serve env (suggest_icd10_codes i u) db
      = (step_done "ICD-10 codes suggested successfully" t' u, db',
         lookup_only i ++ [ called (Ai (icd10_request t));
                            called (Db (TranscriptionService.update_icd10_codes i v)) ])%list)
  /\ (truthy (Transcription.medical_note t) = true ->
      ai_answer env _ (cpt_request t) = Ok v ->
      store_update_cpt_codes i v db = (Some t', db') ->
      serve env (suggest_cpt_codes i u) db
      = (step_done "CPT codes suggested successfully" t' u, db',
         lookup_only i ++ [ called (Ai (cpt_request t));
                            called (Db (TranscriptionService.update_cpt_codes i v)) ])%list)
  /\ (ready_for_form t = true ->
      ai_answer env _ (cms1500_request t p) = Ok v ->
      store_update_cms1500_form i v db = (Some t', db') ->
      serve env (generate_cms1500_form i p u) db
      = (step_done "CMS-1500 form generated successfully" t' u, db',
         lookup_only i ++ [ called (Ai (cms1500_request t p));
                            called (Db (TranscriptionService.update_cms1500_form i v)) ])%list).
Proof.
  repeat split.
  - intros Hai Hup. enter generate_medical_note Hget. rewrite Hai. cbn.
    rewrite Hup. reflexivity.
  - intros Hn Hai Hup. enter suggest_icd10_codes Hget. rewrite Hn. cbn.
    rewrite Hai. cbn. rewrite Hup. reflexivity.
  - intros Hn Hai Hup. enter suggest_cpt_codes Hget. rewrite Hn. cbn.
    rewrite Hai. cbn. rewrite Hup. reflexivity.
  - intros Hr Hai Hup. apply ready_for_form_inv in Hr as (Hn & Hi & Hc).
    enter generate_cms1500_form Hget. rewrite Hn, Hi, Hc. cbn.
    rewrite Hai. cbn. rewrite Hup. reflexivity.
Qed.

(** When the store answers the update of a step with None (the record is
    gone by then), the handler raises 500 with the failure message of that
    step, after the assistant was asked. *)
Theorem lost_update_is_500 db db' i p u t v
    (Hget : store_get i db = Some t) :
  (ai_answer env _ (note_request t) = Ok v ->
   store_update_medical_note i v db = (None, db') ->
   outcome (serve env (generate_medical_note i u) db)
   = Raise (http 500 "Failed to update medical note"))
  /\ (truthy (Transcription.medical_note t) = true ->
      ai_answer env _ (icd10_request t) = Ok v ->
      store_update_icd10_codes i v db = (None, db') ->
      outcome (serve env (suggest_icd10_codes i u) db)
      = Raise (http 500 "Failed to update ICD-10 codes"))
  /\ (truthy (Transcription.medical_note t) = true ->
      ai_answer env _ (cpt_request t) = Ok v ->
      store_update_cpt_codes i v db = (None, db') ->
      outcome (serve env (suggest_cpt_codes i u) db)
      = Raise (http 500 "Failed to update CPT codes"))
  /\ (ready_for_form t = true ->
      ai_answer env _ (cms1500_request t p) = Ok v ->
      store_update_cms1500_form i v db = (None, db') ->
      outcome (serve env (generate_cms1500_form i p u) db)
      = Raise (http 500 "Failed to update CMS-1500 form")).
Proof.
  repeat split.
  - intros Hai Hup. enter generate_medical_note Hget. rewrite Hai. cbn.
    rewrite Hup. reflexivity.
  - intros Hn Hai Hup. enter suggest_icd10_codes Hget. rewrite Hn. cbn.
    rewrite Hai. cbn. rewrite Hup. reflexivity.
  - intros Hn Hai Hup. enter suggest_cpt_codes Hget. rewrite Hn. cbn.
    rewrite Hai. cbn. rewrite Hup. reflexivity.
  - intros Hr Hai Hup. apply ready_for_form_inv in Hr as (Hn & Hi & Hc).
    enter generate_cms1500_form Hget. rewrite Hn, Hi, Hc. cbn.
    rewrite Hai. cbn. rewrite Hup. reflexivity.
Qed.

End WorkflowOutcomes.

Lemma assistant_failure_writes_nothing_witness :
  let db := Sample.db_of [Sample.complete] in
  serve assistant_down (generate_cms1500_form 3 None Sample.admin) db
  = (Raise (CollaboratorError (PStr "timeout")), db,
     lookup_only 3 ++ [called (Ai (cms1500_request Sample.complete None))])%list.
Proof.
  intros db.
  refine (proj2 (proj2 (proj2
            (assistant_failure_writes_nothing (H := MemoryStore.store) assistant_down
               db 3 None Sample.admin Sample.complete
               (CollaboratorError (PStr "timeout")) eq_refl))) _ _);
    reflexivity.
Defined.

Lemma step_writes_the_answer_witness :
  let e := Sample.env Sample.hf_success (Ok Sample.full_result) in
  let db := Sample.db_of [Sample.raw 1; Sample.half_coded] in
  exists t' db',
    serve e (suggest_cpt_codes 4 Sample.doctor) db
    = (step_done "CPT codes suggested successfully" t' Sample.doctor, db',
       lookup_only 4 ++ [ called (Ai (cpt_request Sample.half_coded));
                          called (Db (TranscriptionService.update_cpt_codes 4 Sample.cpt)) ])%list
    /\ Transcription.cpt_codes t' = Sample.cpt
    /\ MemoryStore.get 4 db' = Some t'.
Proof.
  intros e db.
  destruct (MemoryStore.update (MemoryStore.mkPatch None None (Some Sample.cpt) None) 4 db)
    as [[t'|] db'] eqn:Hup; [|discriminate Hup].
  exists t', db'. split.
  - refine (proj1 (proj2 (proj2
              (step_writes_the_answer (H := MemoryStore.store) e db db' 4 None
                 Sample.doctor Sample.half_coded t' Sample.cpt eq_refl))) _ _ _);
      [reflexivity | reflexivity | exact Hup].
  - vm_compute in Hup. injection Hup as <- <-. split; reflexivity.
Defined.

Lemma lost_update_is_500_witness :
  let e := Sample.env Sample.hf_success (Ok Sample.full_result) in
  let db := Sample.db_of [Sample.raw 1] in
  outcome (serve (H := vanishing_store) e (generate_medical_note 1 Sample.admin) db)
  = Raise (http 500 "Failed to update medical note").
Proof.
  intros e db.
  refine (proj1 (lost_update_is_500 (H := vanishing_store) e db db 1 None
                   Sample.admin (Sample.raw 1)
                   (PStr "Patient presents with cephalalgia") eq_refl) _ _);
    reflexivity.
Defined.

(** ** What a doctor is shown *)

Lemma doctor_view_hides_billing (t : Transcription.t) (u : User) :
  role u = DOCTOR -> hides_billing (filter_transcription_for_role t u).
Proof.
  intros Hrole. destruct (filter_for_doctor t u Hrole) as (r & -> & Hd).
  unfold hides_billing, billing_keys. rewrite Hd.
  repeat apply Forall_cons_2; [| | |apply Forall_nil_2].
  - apply lookup_delete_eq.
  - rewrite lookup_delete_ne by discriminate. apply lookup_delete_eq.
  - do 2 (rewrite lookup_delete_ne by discriminate). apply lookup_delete_eq.
Qed.

Ltac split_on :=
  match goal with
  | |- context [format_rejected ?s ?b] => destruct (format_rejected s b) eqn:?
  | |- context [Num.Qgtb ?a ?b] => destruct (Num.Qgtb a b) eqn:?
  | |- context [query_ok ?a ?b] => destruct (query_ok a b) eqn:?
  | |- context [floordiv ?a ?b] => destruct (floordiv a b) eqn:?
  | |- context [store_get ?i ?d] => destruct (store_get i d) eqn:?
  | |- context [truthy ?v] => destruct (truthy v) eqn:?
  | |- context [ai_answer ?e ?X ?o] => destruct (ai_answer e X o) eqn:?
  | |- context [hf_answer ?e ?X ?o] => destruct (hf_answer e X o) eqn:?
  | |- context [eq_str ?a ?b] => destruct (eq_str a b) eqn:?
  | |- context [@lookup string ?V ?M ?L ?k ?m] =>
      destruct (@lookup string V M L k m) eqn:?
  | |- context [store_create ?a ?d] => destruct (store_create a d) eqn:?
  | |- context [store_update_medical_note ?i ?v ?d] =>
      destruct (store_update_medical_note i v d) as [[?|] ?] eqn:?
  | |- context [store_update_icd10_codes ?i ?v ?d] =>
      destruct (store_update_icd10_codes i v d) as [[?|] ?] eqn:?
  | |- context [store_update_cpt_codes ?i ?v ?d] =>
      destruct (store_update_cpt_codes i v d) as [[?|] ?] eqn:?
  | |- context [store_update_cms1500_form ?i ?v ?d] =>
      destruct (store_update_cms1500_form i v d) as [[?|] ?] eqn:?
  | |- context [store_update_full_workflow ?i ?a ?b ?c ?v ?d] =>
      destruct (store_update_full_workflow i a b c v d) as [[?|] ?] eqn:?
  end.

Ltac all_paths :=
  unfold serve, outcome, db_after, calls, getitem; repeat (cbn; try split_on); cbn;
  try discriminate.

Section DoctorViews.
Context {DB : Type} `{Store DB} (env : Collaborators).

(** Whatever a doctor asks for, the record in the reply carries none of
    icd10_codes, cpt_codes and cms1500_form: not when reading one record
    or a page, not after an upload, and not in the reply of the workflow
    steps that have just produced these very fields. *)
Theorem doctor_never_sees_billing settings audio db i p skip limit u
    (Hrole : role u = DOCTOR) :
  (forall v, outcome (serve env (get_transcription i u) db) = Ok v -> hides_billing v)
  /\ (forall v, outcome (serve env (transcribe_audio settings audio u) db) = Ok v ->
        hides_billing v)
  /\ (forall r, outcome (serve env (get_transcriptions skip limit u) db) = Ok r ->
        Forall hides_billing (items r))
  /\ (forall r, outcome (serve env (generate_medical_note i u) db) = Ok r ->
        hides_billing (transcription r))
  /\ (forall r, outcome (serve env (suggest_icd10_codes i u) db) = Ok r ->
        hides_billing (transcription r))
  /\ (forall r, outcome (serve env (suggest_cpt_codes i u) db) = Ok r ->
        hides_billing (transcription r))
  /\ (forall r, outcome (serve env (generate_cms1500_form i p u) db) = Ok r ->
        hides_billing (transcription r))
  /\ (forall r, outcome (serve env (run_full_workflow i p u) db) = Ok r ->
        hides_billing (transcription r)).
Proof.
  repeat split; intros r.
  - unfold get_transcription. all_paths.
    intros [= <-]. now apply doctor_view_hides_billing.
  - unfold transcribe_audio. all_paths.
    intros [= <-]. now apply doctor_view_hides_billing.
  - unfold get_transcriptions. all_paths.
    intros [= <-]. cbn. apply Forall_fmap, Forall_true. intros t.
    now apply doctor_view_hides_billing.
  - unfold generate_medical_note. all_paths.
    intros [= <-]. now apply doctor_view_hides_billing.
  - unfold suggest_icd10_codes. all_paths.
    intros [= <-]. now apply doctor_view_hides_billing.
  - unfold suggest_cpt_codes. all_paths.
    intros [= <-]. now apply doctor_view_hides_billing.
  - unfold generate_cms1500_form. all_paths.
    intros [= <-]. now apply doctor_view_hides_billing.
  - unfold run_full_workflow. all_paths.
    intros [= <-]. now apply doctor_view_hides_billing.
Qed.

End DoctorViews.

Lemma doctor_never_sees_billing_witness :
  let e := Sample.env Sample.hf_success (Ok Sample.full_result) in
  let db := Sample.db_of [Sample.raw 1; Sample.half_coded] in
  let r := serve e (suggest_icd10_codes 4 Sample.doctor) db in
  exists reply,
    outcome r = Ok reply
    /\ hides_billing (transcription reply)
    /\ Transcription.icd10_codes <$> MemoryStore.get 4 (db_after r) = Some Sample.icd10.
Proof.
  intros e db r.
  assert (Hout : exists reply, outcome r = Ok reply)
    by (eexists; vm_compute; reflexivity).
  destruct Hout as [reply Hreply]. exists reply. split; [exact Hreply|]. split.
  - exact (proj1 (proj2 (proj2 (proj2 (proj2
             (doctor_never_sees_billing (H := MemoryStore.store) e Sample.settings
                (mkUpload None None []) db 4 None 0 10 Sample.doctor eq_refl)))))
             reply Hreply).
  - vm_compute. reflexivity.
Defined.

(** ** More on uploads *)

Lemma split_head_append (sep : ascii) (b p : string) :
  Str.split_head sep (b +:+ String sep p) = Str.split_head sep b.
Proof.
  induction b as [|c b IH]; simpl.
  - rewrite Ascii.eqb_refl. reflexivity.
  - destruct (Ascii.eqb c sep); [reflexivity|]. f_equal. exact IH.
Qed.

Lemma append_semicolon_truthy (b p : string) :
  truthy_str (Some (b +:+ String Str.semicolon p)) = true.
Proof. destruct b; reflexivity. Qed.

(** Whatever follows the first semicolon of a content type plays no part
    in the format check: "audio/webm;codecs=opus" is accepted or refused
    exactly as "audio/webm" is. *)
Theorem parameters_ignored_by_format_check (settings : Settings) (b p : string) :
  base_content_type (Some (b +:+ String Str.semicolon p)) = base_content_type (Some b)
  /\ format_rejected settings (base_content_type (Some (b +:+ String Str.semicolon p)))
     = format_rejected settings (base_content_type (Some b)).
Proof.
  assert (Hb : base_content_type (Some (b +:+ String Str.semicolon p))
               = base_content_type (Some b)).
  { unfold base_content_type. rewrite append_semicolon_truthy, split_head_append.
    destruct b as [|c b]; reflexivity. }
  rewrite Hb. split; reflexivity.
Qed.

Lemma match_extension_none (table : list (string * string)) (name : string) :
  (forall ext mime, (ext, mime) ∈ table -> Str.endswith name ext = false) ->
  match_extension table name = None.
Proof.
  induction table as [|[ext mime] rest IH]; intros Hno; [reflexivity|]. cbn.
  rewrite (Hno ext mime) by (left). apply IH. intros ext' mime' Hin.
  apply (Hno ext' mime'). now right.
Qed.

Lemma detect_uses_lowered_name (audio : UploadFile) :
  upload_content_type audio = Some octet_stream ->
  detect_content_type audio
  = match match_extension ext_to_mime (lowered_name audio) with
    | Some mime => Some mime
    | None => Some octet_stream
    end.
Proof.
  intros Hd. unfold detect_content_type, lowered_name. rewrite Hd.
  rewrite bool_decide_eq_true_2 by reflexivity.
  destruct (upload_filename audio) as [f|]; [|reflexivity]. cbn.
  destruct (String.eqb_spec f ""); subst; reflexivity.
Qed.

(** An upload declared as "application/octet-stream" whose name ends in
    none of the six extensions keeps that type and is not refused by the
    format check, whatever the allow-list holds. *)
Theorem unknown_extension_passes_as_octet_stream (settings : Settings) (audio : UploadFile)
    (Hdeclared : upload_content_type audio = Some octet_stream)
    (Hnone : forall ext mime, (ext, mime) ∈ ext_to_mime ->
               Str.endswith (lowered_name audio) ext = false) :
  detect_content_type audio = Some octet_stream
  /\ format_rejected settings (base_content_type (detect_content_type audio)) = false.
Proof.
  assert (Hd : detect_content_type audio = Some octet_stream).
  { rewrite (detect_uses_lowered_name audio Hdeclared).
    rewrite (match_extension_none _ _ Hnone). reflexivity. }
  rewrite Hd. split; [reflexivity|].
  unfold format_rejected.
  replace (base_content_type (Some octet_stream)) with octet_stream by reflexivity.
  rewrite String.eqb_refl. cbn. apply andb_false_r.
Qed.

Lemma unknown_extension_passes_as_octet_stream_witness :
  let audio := mkUpload (Some "application/octet-stream") (Some "scan.pdf") Sample.chunk in
  detect_content_type audio = Some octet_stream
  /\ format_rejected Sample.settings (base_content_type (detect_content_type audio)) = false.
Proof.
  intros audio.
  apply (unknown_extension_passes_as_octet_stream Sample.settings audio eq_refl).
  intros ext mime Hin. unfold ext_to_mime in Hin.
  repeat (apply elem_of_cons in Hin as [Heq | Hin];
          [injection Heq as -> ->; reflexivity|]).
  inversion Hin.
Defined.

Section Uploads.
Context {DB : Type} `{Store DB} (env : Collaborators).

(** An upload whose base type is neither allowed nor
    "application/octet-stream" is refused with 400 and a detail naming the
    resolved type in full, before the file is read: no collaborator is
    called and the database is unchanged. *)
Theorem unsupported_format_is_400 settings audio u db
    (Hrej : format_rejected settings (base_content_type (detect_content_type audio))
            = true) :
  serve env (transcribe_audio settings audio u) db
  = (Raise (http 400 ("Unsupported format: " +:+ fstr_opt (detect_content_type audio))),
     db, []).
Proof. unfold serve, transcribe_audio. rewrite Hrej. reflexivity. Qed.

(** The size limit is inclusive.  An upload that passes the format check
    and whose size is at most the maximum reaches the transcriber, once,
    with its bytes and with the resolved content type. *)
Theorem accepted_upload_is_transcribed_once settings audio u db
    (Hfmt : format_rejected settings (base_content_type (detect_content_type audio))
            = false)
    (Hsize : (size_mb (upload_bytes audio) <= inject_Z (MAX_FILE_SIZE_MB settings))%Q) :
  exists rest,
    calls (serve env (transcribe_audio settings audio u) db)
    = called time_time :: transcription_call audio :: rest
    /\ existsb is_hf_call rest = false.
Proof.
  assert (Hq : Num.Qgtb (size_mb (upload_bytes audio))
                 (inject_Z (MAX_FILE_SIZE_MB settings)) = false).
  { unfold Num.Qgtb. apply Qle_bool_iff in Hsize. rewrite Hsize. reflexivity. }
  unfold serve, calls, transcribe_audio, transcription_call, getitem.
  rewrite Hfmt, Hq.
  repeat (cbn; try split_on); cbn; eexists; split; reflexivity.
Qed.

(** When the transcriber answers with status "error" the upload fails
    with 500 and the transcriber's own message as detail; with status
    "loading" it fails with 503.  Nothing is stored in either case. *)
Theorem transcriber_trouble settings audio u db answer
    (Hfmt : format_rejected settings (base_content_type (detect_content_type audio))
            = false)
    (Hsize : (size_mb (upload_bytes audio) <= inject_Z (MAX_FILE_SIZE_MB settings))%Q)
    (Hanswer : hf_answer env _ (HuggingFaceService.transcribe_audio (upload_bytes audio)
                                  (detect_content_type audio)) = Ok answer) :
  let r := serve env (transcribe_audio settings audio u) db in
  let tried := [called time_time; transcription_call audio; called time_time] in
  (forall detail, answer !! "status" = Some (PStr "error") ->
     answer !! "message" = Some detail ->
     r = (Raise (HTTPException 500 detail), db, tried))
  /\ (answer !! "status" = Some (PStr "error") -> answer !! "message" = None ->
      r = (Raise (KeyError "message"), db, tried))
  /\ (answer !! "status" = Some (PStr "loading") ->
      r = (Raise (http 503 "Model is loading. Please retry in 30 seconds"), db, tried)).
Proof.
  assert (Hq : Num.Qgtb (size_mb (upload_bytes audio))
                 (inject_Z (MAX_FILE_SIZE_MB settings)) = false).
  { unfold Num.Qgtb. apply Qle_bool_iff in Hsize. rewrite Hsize. reflexivity. }
  intros r tried. subst r tried.
  unfold serve, transcribe_audio, transcription_call, getitem.
  rewrite Hfmt, Hq. cbn. rewrite Hanswer. cbn.
  split; [|split].
  - intros detail -> ->. reflexivity.
  - intros -> ->. reflexivity.
  - intros ->. reflexivity.
Qed.

(** An upload that fails, for whatever reason, leaves no trace in the
    database: on every failing path the store is never written. *)
Theorem failed_upload_persists_nothing settings audio u db e
    (Hfail : outcome (serve env (transcribe_audio settings audio u) db) = Raise e) :
  db_after (serve env (transcribe_audio settings audio u) db) = db
  /\ existsb is_db_write (calls (serve env (transcribe_audio settings audio u) db))
     = false.
Proof.
  revert Hfail. unfold transcribe_audio. all_paths; intros _; split; reflexivity.
Qed.

End Uploads.

Lemma unsupported_format_is_400_witness :
  let audio := mkUpload (Some "text/plain; charset=utf-8") (Some "notes.txt") Sample.chunk in
  serve (Sample.env Sample.hf_success (Ok Sample.full_result))
    (transcribe_audio Sample.settings audio Sample.admin) MemoryStore.empty
  = (Raise (http 400 "Unsupported format: text/plain; charset=utf-8"),
     MemoryStore.empty, []).
Proof.
  intros audio.
  apply (unsupported_format_is_400 (H := MemoryStore.store)).
  vm_compute. reflexivity.
Defined.

Lemma accepted_upload_is_transcribed_once_witness :
  let audio := mkUpload (Some "audio/wav") (Some "long.wav") one_megabyte in
  exists rest,
    calls (serve (Sample.env Sample.hf_success (Ok Sample.full_result))
             (transcribe_audio Sample.settings audio Sample.admin) MemoryStore.empty)
    = called time_time :: transcription_call audio :: rest
    /\ existsb is_hf_call rest = false.
Proof.
  intros audio.
  apply (accepted_upload_is_transcribed_once (H := MemoryStore.store)).
  - vm_compute. reflexivity.
  - vm_compute. discriminate.
Defined.

Lemma transcriber_trouble_witness :
  let audio := mkUpload (Some "audio/webm;codecs=opus") (Some "visit.webm") Sample.chunk in
  serve (Sample.env Sample.hf_error (Ok Sample.full_result))
    (transcribe_audio Sample.settings audio Sample.admin) MemoryStore.empty
  = (Raise (HTTPException 500 (PStr "model crashed")), MemoryStore.empty,
     [called time_time; transcription_call audio; called time_time]).
Proof.
  intros audio.
  refine (proj1 (transcriber_trouble (H := MemoryStore.store)
                   (Sample.env Sample.hf_error (Ok Sample.full_result))
                   Sample.settings audio Sample.admin MemoryStore.empty
                   {[ "status" := PStr "error"; "message" := PStr "model crashed" ]}
                   _ _ eq_refl) (PStr "model crashed") _ _).
  - vm_compute. reflexivity.
  - vm_compute. discriminate.
  - vm_compute. reflexivity.
  - vm_compute. reflexivity.
Defined.

Lemma failed_upload_persists_nothing_witness :
  let r := serve (Sample.env Sample.hf_loading (Ok Sample.full_result))
             (transcribe_audio Sample.settings
                (mkUpload (Some "audio/wav") (Some "long.wav") Sample.chunk)
                Sample.admin) Sample.fifteen in
  db_after r = Sample.fifteen /\ existsb is_db_write (calls r) = false.
Proof.
  intros r.
  eapply (failed_upload_persists_nothing (H := MemoryStore.store)).
  vm_compute. reflexivity.
Defined.

(** ** More on chunks *)

Section Chunks.
Context {DB : Type} `{Store DB} (env : Collaborators).

(** An empty chunk is answered at once with an empty text and status
    "empty": the transcriber is not called. *)
Theorem empty_chunk_is_not_transcribed audio u db
    (Hempty : upload_bytes audio = []) :
  serve env (transcribe_audio_chunk audio u) db
  = (Ok {[ "text" := PStr ""; "status" := PStr "empty" ]}, db, []).
Proof. unfold serve, transcribe_audio_chunk. rewrite Hempty. reflexivity. Qed.

(** A non-empty chunk is sent to the transcriber exactly once, whatever
    the answer; the content type sent is the declared one, or "audio/webm"
    when none or an empty one was declared.  The database is neither read
    nor written. *)
Theorem chunk_is_transcribed_once audio u db
    (Hne : upload_bytes audio <> []) :
  calls (serve env (transcribe_audio_chunk audio u) db)
  = [called (Hf (HuggingFaceService.transcribe_audio (upload_bytes audio)
                   (chunk_content_type audio)))]
  /\ db_after (serve env (transcribe_audio_chunk audio u) db) = db
  /\ (upload_content_type audio = None \/ upload_content_type audio = Some "" ->
      chunk_content_type audio = Some "audio/webm")
  /\ (forall ct, upload_content_type audio = Some ct -> ct <> "" ->
        chunk_content_type audio = Some ct).
Proof.
  split; [|split; [|split]].
  - unfold transcribe_audio_chunk.
    destruct (upload_bytes audio) as [|b bytes]; [contradiction|].
    all_paths; reflexivity.
  - unfold transcribe_audio_chunk.
    destruct (upload_bytes audio) as [|b bytes]; [contradiction|].
    all_paths; reflexivity.
  - unfold chunk_content_type. intros [-> | ->]; reflexivity.
  - unfold chunk_content_type. intros ct -> Hct. cbn.
    destruct (String.eqb_spec ct ""); [contradiction|reflexivity].
Qed.

(** Only the two statuses "error" and "loading" are softened.  Any other
    status, known or not, is taken as success and the text is returned;
    an answer without status, or without text when one is needed, makes
    the handler raise KeyError, and an exception of the transcriber is
    let through. *)
Theorem chunk_leniency_ends audio u db
    (Hne : upload_bytes audio <> []) :
  let asked := HuggingFaceService.transcribe_audio (upload_bytes audio)
                 (chunk_content_type audio) in
  let r := outcome (serve env (transcribe_audio_chunk audio u) db) in
  (forall e, hf_answer env _ asked = Raise e -> r = Raise e)
  /\ (forall answer, hf_answer env _ asked = Ok answer ->
        answer !! "status" = None -> r = Raise (KeyError "status"))
  /\ (forall answer status, hf_answer env _ asked = Ok answer ->
        answer !! "status" = Some status ->
        eq_str status "error" = false -> eq_str status "loading" = false ->
        r = match answer !! "text" with
            | Some text => Ok {[ "text" := text; "status" := PStr "success" ]}
            | None => Raise (KeyError "text")
            end).
Proof.
  intros asked r. subst asked r. split; [|split].
  - intros e He. unfold serve, outcome, transcribe_audio_chunk.
    destruct (upload_bytes audio) as [|b bytes]; [contradiction|].
    cbn. rewrite He. reflexivity.
  - intros answer Ha Hs. rewrite (chunk_served env audio u db answer Hne Ha).
    unfold outcome. cbn. rewrite Hs. reflexivity.
  - intros answer status Ha Hs He Hl.
    rewrite (chunk_served env audio u db answer Hne Ha).
    unfold outcome. cbn. rewrite Hs, He, Hl. reflexivity.
Qed.

End Chunks.

Lemma empty_chunk_is_not_transcribed_witness :
  serve (Sample.env Sample.hf_error (Ok Sample.full_result))
    (transcribe_audio_chunk (mkUpload (Some "audio/webm") (Some "chunk-0.webm") [])
       Sample.doctor) Sample.fifteen
  = (Ok {[ "text" := PStr ""; "status" := PStr "empty" ]}, Sample.fifteen, []).
Proof.
  apply (empty_chunk_is_not_transcribed (H := MemoryStore.store)). reflexivity.
Defined.

Lemma chunk_is_transcribed_once_witness :
  let audio := mkUpload None (Some "chunk-1.webm") Sample.chunk in
  calls (serve (Sample.env Sample.hf_loading (Ok Sample.full_result))
           (transcribe_audio_chunk audio Sample.doctor) Sample.fifteen)
  = [called (Hf (HuggingFaceService.transcribe_audio Sample.chunk (Some "audio/webm")))].
Proof.
  intros audio.
  refine (proj1 (chunk_is_transcribed_once (H := MemoryStore.store)
                   (Sample.env Sample.hf_loading (Ok Sample.full_result))
                   audio Sample.doctor Sample.fifteen _)).
  discriminate.
Defined.

Lemma chunk_leniency_ends_witness :
  let audio := mkUpload (Some "audio/webm") (Some "chunk-2.webm") Sample.chunk in
  let odd := {[ "status" := PStr "queued"; "text" := PStr "hello" ]} in
  outcome (serve (Sample.env (Ok odd) (Ok Sample.full_result))
             (transcribe_audio_chunk audio Sample.doctor) MemoryStore.empty)
  = Ok {[ "text" := PStr "hello"; "status" := PStr "success" ]}.
Proof.
  intros audio odd.
  refine (proj2 (proj2 (chunk_leniency_ends (H := MemoryStore.store)
                          (Sample.env (Ok odd) (Ok Sample.full_result))
                          audio Sample.doctor MemoryStore.empty _))
            odd (PStr "queued") eq_refl eq_refl eq_refl eq_refl).
  discriminate.
Defined.

(** ** Pages *)

Section Pages.
Context {DB : Type} `{Store DB} (env : Collaborators).

(** The page reported by a list request is the one the offset falls in:
    counting pages from 1, (page - 1) * page_size <= skip < page *
    page_size.  The request reads the store twice, page then count, writes
    nothing, and returns the page of the store filtered record by record,
    in the store's order. *)
Theorem page_contains_offset db skip limit u r
    (Hok : outcome (serve env (get_transcriptions skip limit u) db) = Ok r) :
  1 <= page r
  /\ (page r - 1) * page_size r <= skip < page r * page_size r
  /\ total r = store_count db
  /\ items r = (fun t => filter_transcription_for_role t u) <$> store_list skip limit db
  /\ db_after (serve env (get_transcriptions skip limit u) db) = db
  /\ calls (serve env (get_transcriptions skip limit u) db)
     = [ called (Db (TranscriptionService.get_transcriptions skip limit));
         called (Db TranscriptionService.count_transcriptions) ].
Proof.
  revert Hok. unfold serve, outcome, db_after, calls, get_transcriptions.
  destruct (query_ok skip limit) eqn:Hq; cbn; [|discriminate].
  apply query_ok_bounds in Hq. unfold floordiv.
  destruct (Z.eqb_spec limit 0) as [->|Hl]; [lia|]. cbn.
  intros [= <-]. cbn.
  pose proof (Z.div_mod skip limit Hl) as Hdm.
  pose proof (Z.mod_pos_bound skip limit ltac:(lia)) as Hmod.
  assert (0 <= skip / limit) by (apply Z.div_pos; lia).
  repeat split; try reflexivity; nia.
Qed.

End Pages.

Lemma page_contains_offset_witness :
  exists r,
    outcome (serve (Sample.env Sample.hf_success (Ok Sample.full_result))
               (get_transcriptions 25 10 Sample.admin) Sample.fifteen) = Ok r
    /\ page r = 3 /\ items r = [] /\ total r = 15.
Proof.
  assert (Hout : exists r,
            outcome (serve (Sample.env Sample.hf_success (Ok Sample.full_result))
                       (get_transcriptions 25 10 Sample.admin) Sample.fifteen) = Ok r)
    by (eexists; vm_compute; reflexivity).
  destruct Hout as [r Hr]. exists r. split; [exact Hr|].
  destruct (page_contains_offset (H := MemoryStore.store) _ _ _ _ _ r Hr)
    as (Hone & [Hlo Hhi] & Htotal & Hitems & _ & _).
  assert (Hsize : page_size r = 10).
  { revert Hr. vm_compute. intros [= <-]. reflexivity. }
  rewrite Hsize in Hlo, Hhi. split; [lia|]. split; [exact Hitems | exact Htotal].
Defined.

(** ** Reading, deleting, storing *)

Section Rest.
Context {DB : Type} `{Store DB} (env : Collaborators).

(** Deleting asks the store once and goes by its answer alone: True gives
    the confirmation message, False gives 404.  The record is not looked
    up first. *)
Theorem delete_follows_the_store db i u :
  let answer := store_delete i db in
  serve env (delete_transcription i u) db
  = (if answer.1
     then Ok {[ "message" := PStr "Transcription deleted successfully" ]}
     else Raise (http 404 "Transcription not found"),
     answer.2,
     [called (Db (TranscriptionService.delete_transcription i))]).
Proof.
  unfold serve, delete_transcription. cbn.
  destruct (store_delete i db) as [[|] db']; reflexivity.
Qed.

(** Reading one record, reading a page and transcribing a chunk never
    write to the database, whatever they are given and whatever the
    collaborators answer. *)
Theorem reading_never_writes db i skip limit audio u :
  (existsb is_db_write (calls (serve env (get_transcription i u) db)) = false
   /\ db_after (serve env (get_transcription i u) db) = db)
  /\ (existsb is_db_write (calls (serve env (get_transcriptions skip limit u) db)) = false
      /\ db_after (serve env (get_transcriptions skip limit u) db) = db)
  /\ (existsb is_db_write (calls (serve env (transcribe_audio_chunk audio u) db)) = false
      /\ db_after (serve env (transcribe_audio_chunk audio u) db) = db).
Proof.
  split; [|split].
  - unfold get_transcription. all_paths; split; reflexivity.
  - unfold get_transcriptions. all_paths; split; reflexivity.
  - unfold transcribe_audio_chunk.
    destruct (upload_bytes audio) as [|b bytes]; all_paths; split; reflexivity.
Qed.

(** What a successful upload stores: the file name as sent, the size and
    the elapsed time rounded to two decimals, the resolved content type,
    the text of the transcriber's answer, the id of the configured default
    model and the provider "huggingface".  The reply is the role-filtered
    view of the record the store created. *)
Theorem successful_upload_record settings audio u db v
    (Hok : outcome (serve env (transcribe_audio settings audio u) db) = Ok v) :
  exists answer config text model_id,
    hf_answer env _ (HuggingFaceService.transcribe_audio (upload_bytes audio)
                       (detect_content_type audio)) = Ok answer
    /\ AVAILABLE_MODELS settings !! DEFAULT_MODEL settings = Some config
    /\ answer !! "text" = Some text
    /\ config !! "id" = Some model_id
    /\ let data :=
         {| TranscriptionCreate.filename := upload_filename audio;
            TranscriptionCreate.file_size_mb := Num.round2 (size_mb (upload_bytes audio));
            TranscriptionCreate.content_type := detect_content_type audio;
            TranscriptionCreate.text := text;
            TranscriptionCreate.processing_time_seconds :=
              Num.round2 (clock env 1 - clock env 0)%Q;
            TranscriptionCreate.model := model_id;
            TranscriptionCreate.provider := "huggingface" |} in
       calls (serve env (transcribe_audio settings audio u) db)
       = [ called time_time; transcription_call audio; called time_time;
           called (Db (TranscriptionService.create_transcription data)) ]
       /\ v = filter_transcription_for_role (store_create data db).1 u
       /\ db_after (serve env (transcribe_audio settings audio u) db)
          = (store_create data db).2.
Proof.
  revert Hok. unfold transcribe_audio, transcription_call.
  unfold serve, outcome, db_after, calls, getitem.
  destruct (format_rejected _ _); [discriminate|].
  destruct (Num.Qgtb _ _); [discriminate|].
  cbn. destruct (hf_answer env _ _) as [answer|e]; cbn; [|discriminate].
  destruct (answer !! "status") as [status|]; cbn; [|discriminate].
  destruct (eq_str status "error"); cbn.
  { destruct (answer !! "message"); cbn; discriminate. }
  destruct (eq_str status "loading"); cbn; [discriminate|].
  destruct (AVAILABLE_MODELS settings !! DEFAULT_MODEL settings) as [config|] eqn:Hcfg;
    cbn; [|discriminate].
  destruct (answer !! "text") as [text|] eqn:Htext; cbn; [|discriminate].
  destruct (config !! "id") as [model_id|] eqn:Hid; cbn; [|discriminate].
  destruct (store_create _ db) as [t db'] eqn:Hc. cbn.
  intros [= <-]. exists answer, config, text, model_id.
  repeat split; try assumption; cbn; rewrite Hc; reflexivity.
Qed.

(** The model configuration is read only after the transcriber has
    answered: when the default model is not configured, or has no id, a
    successful transcription is thrown away with KeyError and nothing is
    stored. *)
Theorem unconfigured_model_fails_late settings audio u db answer text
    (Hfmt : format_rejected settings (base_content_type (detect_content_type audio))
            = false)
    (Hsize : (size_mb (upload_bytes audio) <= inject_Z (MAX_FILE_SIZE_MB settings))%Q)
    (Hanswer : hf_answer env _ (HuggingFaceService.transcribe_audio (upload_bytes audio)
                                  (detect_content_type audio)) = Ok answer)
    (Hstatus : answer !! "status" = Some (PStr "success"))
    (Htext : answer !! "text" = Some text) :
  let r := serve env (transcribe_audio settings audio u) db in
  let tried := [called time_time; transcription_call audio; called time_time] in
  (AVAILABLE_MODELS settings !! DEFAULT_MODEL settings = None ->
   r = (Raise (KeyError (DEFAULT_MODEL settings)), db, tried))
  /\ (forall config, AVAILABLE_MODELS settings !! DEFAULT_MODEL settings = Some config ->
        config !! "id" = None -> r = (Raise (KeyError "id"), db, tried)).
Proof.
  assert (Hq : Num.Qgtb (size_mb (upload_bytes audio))
                 (inject_Z (MAX_FILE_SIZE_MB settings)) = false).
  { unfold Num.Qgtb. apply Qle_bool_iff in Hsize. rewrite Hsize. reflexivity. }
  intros r tried. subst r tried.
  unfold serve, transcribe_audio, transcription_call, getitem.
  rewrite Hfmt, Hq. cbn. rewrite Hanswer. cbn. rewrite Hstatus. cbn.
  split.
  - intros ->. reflexivity.
  - intros config -> Hid. cbn. rewrite Htext. cbn. rewrite Hid. reflexivity.
Qed.

End Rest.

Lemma successful_upload_record_witness :
  let audio := mkUpload (Some "audio/webm;codecs=opus") (Some "visit.webm") Sample.chunk in
  let env := Sample.env Sample.hf_success (Ok Sample.full_result) in
  let r := serve (H := MemoryStore.store) env
             (transcribe_audio Sample.settings audio Sample.admin) MemoryStore.empty in
  exists v answer config text model_id,
    outcome r = Ok v
    /\ hf_answer env _ (HuggingFaceService.transcribe_audio (upload_bytes audio)
                          (detect_content_type audio)) = Ok answer
    /\ AVAILABLE_MODELS Sample.settings !! DEFAULT_MODEL Sample.settings = Some config
    /\ answer !! "text" = Some text
    /\ config !! "id" = Some model_id.
Proof.
  intros audio env r.
  destruct (outcome r) as [v|e] eqn:Hok; [|vm_compute in Hok; discriminate].
  destruct (successful_upload_record (H := MemoryStore.store) env Sample.settings
              audio Sample.admin MemoryStore.empty v Hok)
    as (answer & config & text & model_id & Ha & Hc & Ht & Hi & _).
  exists v, answer, config, text, model_id. repeat split; assumption.
Defined.

Lemma unconfigured_model_fails_late_witness :
  let audio := mkUpload (Some "audio/wav") (Some "long.wav") one_megabyte in
  serve (H := MemoryStore.store) (Sample.env Sample.hf_success (Ok Sample.full_result))
    (transcribe_audio unconfigured audio Sample.admin) MemoryStore.empty
  = (Raise (KeyError "whisper"), MemoryStore.empty,
     [called time_time; transcription_call audio; called time_time]).
Proof.
  intros audio.
  refine (proj1 (unconfigured_model_fails_late (H := MemoryStore.store)
                   (Sample.env Sample.hf_success (Ok Sample.full_result))
                   unconfigured audio Sample.admin MemoryStore.empty
                   {[ "status" := PStr "success";
                      "text" := PStr "Patient reports headache" ]}
                   (PStr "Patient reports headache") _ _ eq_refl _ _) _).
  - vm_compute. reflexivity.
  - vm_compute. discriminate.
  - vm_compute. reflexivity.
  - vm_compute. reflexivity.
  - vm_compute. reflexivity.
Defined.
